(** * neu.py: PubMed abstract -> Glida named entity recognition -> "<PMID>.json"

    A shallow embedding of [src/neu.py] and the properties of its four
    functions [fetch_pubmed_xml], [extract_abstract_from_pubmed_xml],
    [apply_glida_ner_to_text] and [main].

    Conventions.
    - A Python [str] is represented by a [string] holding its UTF-8 encoding;
      concatenation and equality of [str] values are concatenation and
      equality of these representations.
    - Python [bytes] are [list byte].
    - The libraries the script calls (lxml, httpx, pathlib) are not part of
      the repository.  What the script relies on is modelled here: the
      XPath 1.0 data model and the evaluation of location paths, the request
      building and the response hook of the httpx client, the truncating
      write of [Path.write_bytes].  The XML parser itself, the remote hosts
      and the operating system's verdict on opening a file are parameters of
      the development. *)

From Stdlib Require Import String Ascii Strings.Byte List ZArith Lia Bool.
From stdpp Require Import base option list strings gmap.

Local Open Scope string_scope.
Local Open Scope list_scope.

Definition str : Type := string.
Definition bytes : Type := list byte.

(** [b"..."] literals. *)
Definition bytes_of (s : string) : bytes := list_byte_of_string s.

(** ** Exceptions *)

Module Exn.

(** The ways an httpx transport fails before a response arrives; all are
    subclasses of [httpx.TransportError]. *)
Inductive transport_failure : Type :=
| ConnectError
| ConnectTimeout
| ReadTimeout
| WriteTimeout
| PoolTimeout
| ReadError
| WriteError
| RemoteProtocolError.

Inductive exn : Type :=
| HTTPStatusError (status_code : Z)            (* httpx.HTTPStatusError *)
| TransportError (failure : transport_failure) (* httpx.TransportError *)
| DecodingError                                (* httpx.DecodingError *)
| XMLSyntaxError (msg : string)                (* lxml.etree.XMLSyntaxError *)
| TypeError (msg : string)                     (* builtin, from str.join *)
| OSError (filename : string).                 (* builtin, from open() *)

(** [httpx.HTTPError] is the common base class of [HTTPStatusError], of
    [TransportError] and of [DecodingError]; the specification calls it
    RemoteServiceError. *)
Definition RemoteServiceError (e : exn) : bool :=
  match e with
  | HTTPStatusError _ | TransportError _ | DecodingError => true
  | _ => false
  end.

(** [lxml.etree.XMLSyntaxError] derives from [lxml.etree.ParseError]. *)
Definition ParseError (e : exn) : bool :=
  match e with
  | XMLSyntaxError _ => true
  | _ => false
  end.

End Exn.
Export Exn.

(** A computation that returns or raises, without touching the world. *)
Definition result (A : Type) : Type := exn + A.
Definition Return {A} (a : A) : result A := inr a.
Definition Raise {A} (e : exn) : result A := inl e.

(** ** The XML tree and XPath *)

Module Xml.

(** The tree libxml2 builds and XPath navigates: element content is a list of
    child nodes, text included.  [ns] is the namespace URI of the element's
    expanded name, [tag] its local part. *)
#[local] Unset Elimination Schemes.
Inductive node : Type :=
| Element (ns : option string) (tag : string)
          (attrib : list (string * string)) (children : list node)
| Text (data : str)
| Comment (data : str)
| ProcessingInstruction (target data : str).
#[local] Set Elimination Schemes.

Definition children_of (n : node) : list node :=
  match n with
  | Element _ _ _ cs => cs
  | _ => []
  end.

(** A node is identified by its position: the child indices on the way down
    from the root node of the document.  Document order is the order in
    which [subtree] lists the positions. *)
Definition path : Type := list nat.

(** The XPath root node (the document) is not an element; the tree returned
    by the parser hangs below it. *)
Inductive xnode : Type :=
| Root (top : list node)
| Inner (n : node).

Fixpoint subtree (p : path) (n : node) : list (path * xnode) :=
  (p, Inner n) ::
  match n with
  | Element _ _ _ cs =>
      (fix forest (i : nat) (cs : list node) : list (path * xnode) :=
         match cs with
         | [] => []
         | c :: cs' => subtree (p ++ [i]) c ++ forest (S i) cs'
         end) 0 cs
  | _ => []
  end.

Definition forest (p : path) : nat -> list node -> list (path * xnode) :=
  fix forest (i : nat) (cs : list node) : list (path * xnode) :=
    match cs with
    | [] => []
    | c :: cs' => subtree (p ++ [i]) c ++ forest (S i) cs'
    end.

(** Every node of the document of [root], in document order.  Comments and
    processing instructions beside the root element are left out: they have
    no children and are neither elements nor text. *)
Definition all_nodes (root : node) : list (path * xnode) :=
  ([], Root [root]) :: subtree [0] root.

(** *** Location paths *)

Inductive axis : Type :=
| Child
| DescendantOrSelf
| Descendant
| Self.

Inductive node_test : Type :=
| NameTest (name : string)   (* an unprefixed QName *)
| AnyNode                    (* node() *)
| TextTest.                  (* text() *)

Definition step : Type := axis * node_test.

(** [on_axis a p q]: the node at [q] is on axis [a] of the node at [p]. *)
Definition on_axis (a : axis) (p q : path) : bool :=
  match a with
  | Child => bool_decide (p `prefix_of` q) && bool_decide (length q = S (length p))
  | DescendantOrSelf => bool_decide (p `prefix_of` q)
  | Descendant => bool_decide (p `prefix_of` q) && bool_decide (length p < length q)
  | Self => bool_decide (p = q)
  end.

(** A name test selects the elements whose expanded name equals the one of
    the QName.  An unprefixed QName has a null namespace URI (XPath 1.0,
    2.3): the default namespace is not applied, and the comparison of local
    parts is plain string equality. *)
Definition test_node (t : node_test) (x : xnode) : bool :=
  match t, x with
  | AnyNode, _ => true
  | TextTest, Inner (Text _) => true
  | NameTest name, Inner (Element None tag _ _) => bool_decide (tag = name)
  | _, _ => false
  end.

(** The node at [q] is on axis [a] of some node of the node-set [ctx]. *)
Definition reaches (a : axis) (ctx : list (path * xnode)) (q : path) : bool :=
  existsb (fun px => on_axis a (fst px) q) ctx.

(** One step of a location path from the node-set [ctx]: the nodes that are
    on the axis of some context node and pass the test.  A node-set is a
    set; it is kept as the list of its members in document order, which is
    the order lxml returns them in. *)
Definition select (root : node) (ctx : list (path * xnode)) (s : step)
  : list (path * xnode) :=
  List.filter
    (fun qx => reaches (fst s) ctx (fst qx) && test_node (snd s) (snd qx))
    (all_nodes root).

(** An absolute location path starts at the root node of the document that
    contains the context node. *)
Definition eval_absolute (root : node) (steps : list step) : list xnode :=
  map snd (fold_left (select root) steps [([], Root [root])]).

(** What lxml hands back for a selected node: a text node becomes a [str]
    (a "smart string"), an element stays an element object. *)
Inductive xpath_item : Type :=
| ItemStr (s : str)
| ItemNode (n : node).

Definition unwrap (x : xnode) : list xpath_item :=
  match x with
  | Inner (Text s) => [ItemStr s]
  | Inner n => [ItemNode n]
  | Root _ => []
  end.

(** [root.xpath(path)] for an absolute location path. *)
Definition xpath (root : node) (steps : list step) : list xpath_item :=
  flat_map unwrap (eval_absolute root steps).

End Xml.
Export Xml.

(** [sep.join(items)]: raises [TypeError] on an item that is not a [str]. *)
Fixpoint join (sep : str) (items : list xpath_item) : result str :=
  match items with
  | [] => Return ""
  | ItemStr s :: rest =>
      match rest with
      | [] => Return s
      | _ =>
          match join sep rest with
          | inr t => Return (s +:+ sep +:+ t)
          | inl e => Raise e
          end
      end
  | ItemNode _ :: _ => Raise (TypeError "sequence item: expected str instance")
  end.

(** ["//AbstractText/text()"]: [//] abbreviates
    [/descendant-or-self::node()/], a bare name is a step on the child axis. *)
Definition ABSTRACT_TEXT_XPATH : list step :=
  [ (DescendantOrSelf, AnyNode); (Child, NameTest "AbstractText"); (Child, TextTest) ].

Section Extract.

(** [lxml.etree.fromstring]: the root element, or the message of the
    [XMLSyntaxError] it raises. *)
Variable fromstring : bytes -> string + node.

Definition extract_abstract_from_pubmed_xml (xml : bytes) : result str :=
  match fromstring xml with
  | inl msg => Raise (XMLSyntaxError msg)
  | inr root => join "" (xpath root ABSTRACT_TEXT_XPATH)
  end.

End Extract.

(** ** The httpx client *)

Module Http.

Inductive method : Type := GET | POST.

(** [httpx.URL]: scheme, host and path.  A URL without scheme or host is a
    relative reference. *)
Record URL : Type := mkURL { scheme : string; host : string; raw_path : string }.

#[global] Instance URL_eq_dec : EqDecision URL.
Proof. solve_decision. Defined.

Definition is_absolute_url (u : URL) : bool :=
  negb (String.eqb (scheme u) "") && negb (String.eqb (host u) "").

Definition is_relative_url (u : URL) : bool := negb (is_absolute_url u).

Fixpoint lstrip_slash (s : string) : string :=
  match s with
  | String "/" rest => lstrip_slash rest
  | _ => s
  end.

Fixpoint ends_with_slash (s : string) : bool :=
  match s with
  | EmptyString => false
  | String c EmptyString => Ascii.eqb c "/"
  | String _ rest => ends_with_slash rest
  end.

(** [Client._enforce_trailing_slash] *)
Definition enforce_trailing_slash (u : URL) : URL :=
  if ends_with_slash (raw_path u) then u
  else mkURL (scheme u) (host u) (raw_path u +:+ "/").

(** [Client._merge_url]: a relative URL is appended to the base URL, an
    absolute one replaces it. *)
Definition merge_url (base url : URL) : URL :=
  if is_relative_url url
  then mkURL (scheme base) (host base) (raw_path base +:+ lstrip_slash (raw_path url))
  else url.

(** The payload of [json=]: a JSON object with string members. *)
Definition json_object : Type := list (string * str).

Record Request : Type := mkRequest {
  req_method : method;
  req_url : URL;
  req_params : list (string * str);
  req_json : option json_object
}.

Record Response : Type := mkResponse {
  status_code : Z;
  content : bytes
}.

Definition is_success (r : Response) : bool :=
  (200 <=? status_code r)%Z && (status_code r <=? 299)%Z.

(** [Response.raise_for_status]: a response outside 2xx raises; 4xx is
    reported as a client error and 5xx as a server error. *)
Definition raise_for_status (r : Response) : result Response :=
  if is_success r then Return r else Raise (HTTPStatusError (status_code r)).

(** What can go wrong while the body of a response is read, once its
    status line and headers have arrived: the body does not decode under
    its Content-Encoding, or the transport fails in the middle of it. *)
Inductive body_failure : Type :=
| Undecodable
| Interrupted (failure : transport_failure).

Definition body_exn (f : body_failure) : exn :=
  match f with
  | Undecodable => DecodingError
  | Interrupted failure => TransportError failure
  end.

(** A request that does not end with a response read in full: nothing
    arrives, or the head of a response arrives ([head], its body unread)
    and the body cannot be read. *)
Inductive failure : Type :=
| NoResponse (f : transport_failure)
| BrokenBody (head : Response) (f : body_failure).

(** [httpx.Timeout(t)]: the four timeouts of a request, in seconds. *)
Record Timeout : Type := mkTimeout { connect : Z; read : Z; write : Z; pool : Z }.

Definition Timeout_all (seconds : Z) : Timeout :=
  mkTimeout seconds seconds seconds seconds.

Record Client : Type := mkClient {
  base_url : URL;
  event_hooks_response : list (Response -> result Response);
  http2 : bool;
  timeout : Timeout
}.

Fixpoint run_hooks (hooks : list (Response -> result Response)) (r : Response)
  : result Response :=
  match hooks with
  | [] => Return r
  | hook :: rest =>
      match hook r with
      | inl e => Raise e
      | inr _ => run_hooks rest r
      end
  end.

End Http.
Export Http.

(** ** The world: the network and the file system *)

(** [requests] are the outbound requests issued so far, oldest first;
    [files] maps a path to the content of the file there. *)
Record world : Type := mkWorld {
  requests : list Request;
  files : gmap string bytes
}.

(** A statement of the script: it returns or raises, and changes the world
    either way. *)
Definition io (A : Type) : Type := world -> result A * world.

Definition ret {A} (a : A) : io A := fun w => (Return a, w).

Definition bind {A B} (m : io A) (k : A -> io B) : io B :=
  fun w =>
    match m w with
    | (inl e, w') => (Raise e, w')
    | (inr a, w') => k a w'
    end.

Definition lift {A} (r : result A) : io A := fun w => (r, w).

Notation "x <- m ;; k" := (bind m (fun x => k))
  (at level 100, m at next level, right associativity).

(* https://www.ncbi.nlm.nih.gov/books/NBK25499/#chapter4.EFetch *)
Definition EFETCH_URL : URL :=
  mkURL "https" "eutils.ncbi.nlm.nih.gov" "/entrez/eutils/efetch.fcgi".

(* https://grounding.indra.bio/apidocs *)
Definition GLIDA_BASE_URL : URL := mkURL "https" "grounding.indra.bio" "".
Definition GLIDA_ANNOTATE_ENDPOINT : URL := mkURL "" "" "/annotate".

(** HTTPX client that raises on 4xx or 5xx status, connects with HTTP2 and
    times out after 5 seconds.  [base_url] is the keyword argument left open
    by the [functools.partial]; httpx defaults it to the empty URL. *)
Definition DefaultClient (base_url : option URL) : Client :=
  mkClient (enforce_trailing_slash (default (mkURL "" "" "") base_url))
           [raise_for_status]
           true
           (Timeout_all 5).

Section Program.

(** The answer of the network to a request, given the requests issued
    before it: a response whose body has been read, or a failure. *)
Variable remote : list Request -> Request -> failure + Response.

(** Whether the operating system lets the process open the path for
    writing. *)
Variable writable : string -> bool.

(** [lxml.etree.fromstring] *)
Variable fromstring : bytes -> string + node.

(** [Client.request]: the request is built and sent once; the response
    hooks run on the response when its head has arrived, then the body is
    read, and the response is returned. *)
Definition request (client : Client) (m : method) (url : URL)
  (params : list (string * str)) (json : option json_object) : io Response :=
  fun w =>
    let req := mkRequest m (merge_url (base_url client) url) params json in
    let w' := mkWorld (requests w ++ [req]) (files w) in
    match remote (requests w) req with
    | inl (NoResponse failure) => (Raise (TransportError failure), w')
    | inl (BrokenBody head failure) =>
        match run_hooks (event_hooks_response client) head with
        | inl e => (Raise e, w')
        | inr _ => (Raise (body_exn failure), w')
        end
    | inr response => (run_hooks (event_hooks_response client) response, w')
    end.

Definition get (client : Client) (url : URL) (params : list (string * str))
  : io Response :=
  request client GET url params None.

Definition post (client : Client) (url : URL) (json : json_object) : io Response :=
  request client POST url [] (Some json).

(** [Path(path).write_bytes(data)]: the file is opened in mode "wb", which
    creates it or truncates it, the data is written and the file is closed.
    Returns the number of bytes written.  The failure modelled is the
    refusal to open the file; a write that breaks off once the file is
    open (a full disk) is not modelled. *)
Definition write_bytes (path : string) (data : bytes) : io nat :=
  fun w =>
    if writable path
    then (Return (length data), mkWorld (requests w) (<[path := data]> (files w)))
    else (Raise (OSError path), w).

(** Given a PubMed ID, fetch its XML metadata via the eFetch web service.
    Returns XML (bytes).  The [with] block closes the client when it is
    left, by a return or by an exception; closing touches neither the
    requests issued nor the files. *)
Definition fetch_pubmed_xml (pmid : str) : io bytes :=
  let client := DefaultClient None in
  response <- get client EFETCH_URL [("db", "pubmed"); ("id", pmid); ("retmode", "xml")] ;;
  ret (content response).

(** Run the given text through the Glida named entity recognition web
    service.  Returns JSON (bytes). *)
Definition apply_glida_ner_to_text (text : str) : io bytes :=
  let client := DefaultClient (Some GLIDA_BASE_URL) in
  response <- post client GLIDA_ANNOTATE_ENDPOINT [("text", text)] ;;
  ret (content response).

Definition main (pmid : str) : io unit :=
  pubmed_xml <- fetch_pubmed_xml pmid ;;
  abstract <- lift (extract_abstract_from_pubmed_xml fromstring pubmed_xml) ;;
  glida_ner_json <- apply_glida_ner_to_text abstract ;;
  (* Write the annotation results to the file "<PMID>.json". *)
  _ <- write_bytes (pmid +:+ ".json") glida_ner_json ;;
  ret tt.

End Program.

(** ** A reference parser for a fragment of XML

    The theorems below hold for whatever [lxml.etree.fromstring] computes.
    To run the script's functions on concrete documents, [Fragment.fromstring]
    parses the documents of a fragment of XML 1.0 with namespaces into the
    tree a conforming parser builds for them: a single root element, start,
    end and empty-element tags, attributes, namespace declarations, and
    character data over tab, line feed and the printable ASCII characters.
    Outside the fragment (references, comments, CDATA sections, processing
    instructions, a prolog, prefixed attributes, other characters) it
    reports the construct as unsupported.  As lxml's default parser does
    (no [huge_tree]), it refuses an element that opens when more than 256
    elements are open. *)

Module Fragment.

Definition is_space (c : ascii) : bool :=
  match N_of_ascii c with
  | 32%N | 9%N | 10%N => true
  | _ => false
  end.

Definition is_supported (c : ascii) : bool :=
  let n := N_of_ascii c in
  is_space c || ((32 <=? n)%N && (n <=? 126)%N).

Definition is_letter (c : ascii) : bool :=
  let n := N_of_ascii c in
  ((65 <=? n)%N && (n <=? 90)%N) || ((97 <=? n)%N && (n <=? 122)%N).

Definition is_digit (c : ascii) : bool :=
  let n := N_of_ascii c in (48 <=? n)%N && (n <=? 57)%N.

Definition is_name_start (c : ascii) : bool :=
  is_letter c || Ascii.eqb c "_".

Definition is_name_char (c : ascii) : bool :=
  is_name_start c || is_digit c || Ascii.eqb c "-" || Ascii.eqb c ".".

Definition is_quote (c : ascii) : bool :=
  Ascii.eqb c "'" || Ascii.eqb c "034".

Definition text_of (acc : list ascii) : string :=
  string_of_list_ascii (rev acc).

Definition is_ncname (s : string) : bool :=
  match s with
  | EmptyString => false
  | String c rest => is_name_start c && forallb is_name_char (list_ascii_of_string rest)
  end.

(** The parts of a string before and after its first colon. *)
Fixpoint break_colon (s : string) : option (string * string) :=
  match s with
  | EmptyString => None
  | String c rest =>
      if Ascii.eqb c ":" then Some ("", rest)
      else match break_colon rest with
           | Some (a, b) => Some (String c a, b)
           | None => None
           end
  end.

(** A QName: an optional prefix and a local part. *)
Definition parse_qname (q : string) : option (option string * string) :=
  match break_colon q with
  | None => if is_ncname q then Some (None, q) else None
  | Some (p, l) => if is_ncname p && is_ncname l then Some (Some p, l) else None
  end.

Fixpoint assoc (k : string) (l : list (string * string)) : option string :=
  match l with
  | [] => None
  | (k', v) :: rest => if String.eqb k k' then Some v else assoc k rest
  end.

Fixpoint has_duplicate (names : list string) : bool :=
  match names with
  | [] => false
  | n :: rest => existsb (String.eqb n) rest || has_duplicate rest
  end.

(** An element whose end tag has not been read yet. *)
Record frame : Type := mkFrame {
  f_qname : string;
  f_ns : option string;
  f_tag : string;
  f_attrib : list (string * string);
  f_env : list (string * string);  (* prefix, namespace name; "" is the default *)
  f_kids : list node               (* latest first *)
}.

Inductive mode : Type :=
| Content (acc : list ascii)
| TagOpen
| StartName (acc : list ascii)
| InTag (name : string) (attrs : list (string * string))
| AttrName (name : string) (attrs : list (string * string)) (acc : list ascii)
| AttrEq (name : string) (attrs : list (string * string)) (aname : string)
| AttrQuote (name : string) (attrs : list (string * string)) (aname : string)
| AttrValue (name : string) (attrs : list (string * string)) (aname : string)
            (quote : ascii) (acc : list ascii)
| AfterValue (name : string) (attrs : list (string * string))
| EmptyEnd (name : string) (attrs : list (string * string))
| EndName (acc : list ascii)
| EndSpace (name : string).

Record state : Type := mkState {
  stack : list frame;
  finished : option node;
  now : mode
}.

Definition add_kid (n : node) (f : frame) : frame :=
  mkFrame (f_qname f) (f_ns f) (f_tag f) (f_attrib f) (f_env f) (n :: f_kids f).

(** The end of a run of character data. *)
Definition flush (acc : list ascii) (stk : list frame) : string + list frame :=
  match acc, stk with
  | [], _ => inr stk
  | _, [] =>
      if forallb is_space acc then inr []
      else inl "not well-formed: character data outside the root element"
  | _, f :: fs => inr (add_kid (Text (text_of acc)) f :: fs)
  end.

(** Namespace declarations extend the environment, the other attributes
    are kept. *)
Fixpoint scan_attrs (attrs env plain : list (string * string))
  : string + (list (string * string) * list (string * string)) :=
  match attrs with
  | [] => inr (env, rev plain)
  | (name, value) :: rest =>
      match parse_qname name with
      | None => inl "not well-formed: attribute name"
      | Some (None, local) =>
          if String.eqb local "xmlns" then scan_attrs rest (("", value) :: env) plain
          else scan_attrs rest env ((local, value) :: plain)
      | Some (Some p, local) =>
          if String.eqb p "xmlns" then
            if String.eqb local "xml" || String.eqb local "xmlns" then
              inl "unsupported: declaration of a reserved prefix"
            else if String.eqb value "" then
              inl "not well-formed: empty namespace name for a prefix"
            else scan_attrs rest ((local, value) :: env) plain
          else inl "unsupported: prefixed attribute"
      end
  end.

Definition resolve (env : list (string * string)) (qname : string)
  : string + (option string * string) :=
  match parse_qname qname with
  | None => inl "not well-formed: element name"
  | Some (None, local) =>
      match assoc "" env with
      | Some uri => inr (if String.eqb uri "" then None else Some uri, local)
      | None => inr (None, local)
      end
  | Some (Some p, local) =>
      if String.eqb p "xml" || String.eqb p "xmlns" then
        inl "unsupported: reserved prefix on an element"
      else match assoc p env with
           | Some uri => inr (Some uri, local)
           | None => inl "not well-formed: namespace prefix is not defined"
           end
  end.

(** libxml2's [xmlParserMaxDepth]. *)
Definition max_depth : nat := 256.

(** The end of a start tag; [attrs] holds the attributes, latest first. *)
Definition open_tag (qname : string) (attrs : list (string * string))
  (stk : list frame) (fin : option node) : string + list frame :=
  match stk, fin with
  | [], Some _ => inl "not well-formed: extra content at the end of the document"
  | _, _ =>
      if Nat.ltb max_depth (List.length stk) then
        inl "excessive depth in document: 256"
      else if has_duplicate (map fst attrs) then inl "not well-formed: attribute redefined"
      else
        let outer := match stk with [] => [] | f :: _ => f_env f end in
        match scan_attrs (rev attrs) outer [] with
        | inl e => inl e
        | inr (env, plain) =>
            match resolve env qname with
            | inl e => inl e
            | inr (ns, local) => inr (mkFrame qname ns local plain env [] :: stk)
            end
        end
  end.

(** The end of an end tag. *)
Definition close_tag (qname : string) (stk : list frame)
  : string + (list frame * option node) :=
  match stk with
  | [] => inl "not well-formed: end tag without a start tag"
  | f :: fs =>
      if String.eqb (f_qname f) qname then
        let e := Element (f_ns f) (f_tag f) (f_attrib f) (rev (f_kids f)) in
        match fs with
        | [] => inr ([], Some e)
        | parent :: rest => inr (add_kid e parent :: rest, None)
        end
      else inl "not well-formed: opening and ending tag mismatch"
  end.

Definition opened (st : state) (qname : string) (attrs : list (string * string))
  : string + state :=
  match open_tag qname attrs (stack st) (finished st) with
  | inl e => inl e
  | inr stk => inr (mkState stk (finished st) (Content []))
  end.

Definition closed (stk : list frame) (fin : option node) (qname : string)
  : string + state :=
  match close_tag qname stk with
  | inl e => inl e
  | inr (stk', Some root) => inr (mkState stk' (Some root) (Content []))
  | inr (stk', None) => inr (mkState stk' fin (Content []))
  end.

Definition opened_closed (st : state) (qname : string) (attrs : list (string * string))
  : string + state :=
  match open_tag qname attrs (stack st) (finished st) with
  | inl e => inl e
  | inr stk => closed stk (finished st) qname
  end.

Definition goto (st : state) (m : mode) : string + state :=
  inr (mkState (stack st) (finished st) m).

Definition feed (st : state) (c : ascii) : string + state :=
  if negb (is_supported c) then inl "unsupported: character"
  else
  match now st with
  | Content acc =>
      if Ascii.eqb c "<" then
        match flush acc (stack st) with
        | inl e => inl e
        | inr stk => inr (mkState stk (finished st) TagOpen)
        end
      else if Ascii.eqb c "&" then inl "unsupported: reference"
      else if Ascii.eqb c ">" then inl "unsupported: > in character data"
      else goto st (Content (c :: acc))
  | TagOpen =>
      if Ascii.eqb c "/" then goto st (EndName [])
      else if Ascii.eqb c "!" || Ascii.eqb c "?" then
        inl "unsupported: comment, CDATA section, declaration or processing instruction"
      else if is_name_start c then goto st (StartName [c])
      else inl "not well-formed: start tag expected"
  | StartName acc =>
      if is_name_char c || Ascii.eqb c ":" then goto st (StartName (c :: acc))
      else if is_space c then goto st (InTag (text_of acc) [])
      else if Ascii.eqb c ">" then opened st (text_of acc) []
      else if Ascii.eqb c "/" then goto st (EmptyEnd (text_of acc) [])
      else inl "not well-formed: element name"
  | InTag name attrs =>
      if is_space c then goto st (InTag name attrs)
      else if Ascii.eqb c ">" then opened st name attrs
      else if Ascii.eqb c "/" then goto st (EmptyEnd name attrs)
      else if is_name_start c then goto st (AttrName name attrs [c])
      else inl "not well-formed: attribute name expected"
  | AttrName name attrs acc =>
      if is_name_char c || Ascii.eqb c ":" then goto st (AttrName name attrs (c :: acc))
      else if Ascii.eqb c "=" then goto st (AttrQuote name attrs (text_of acc))
      else if is_space c then goto st (AttrEq name attrs (text_of acc))
      else inl "not well-formed: attribute without a value"
  | AttrEq name attrs aname =>
      if is_space c then goto st (AttrEq name attrs aname)
      else if Ascii.eqb c "=" then goto st (AttrQuote name attrs aname)
      else inl "not well-formed: attribute without a value"
  | AttrQuote name attrs aname =>
      if is_space c then goto st (AttrQuote name attrs aname)
      else if is_quote c then goto st (AttrValue name attrs aname c [])
      else inl "not well-formed: attribute value is not quoted"
  | AttrValue name attrs aname quote acc =>
      if Ascii.eqb c quote then goto st (AfterValue name ((aname, text_of acc) :: attrs))
      else if Ascii.eqb c "<" then inl "not well-formed: < in an attribute value"
      else if Ascii.eqb c "&" then inl "unsupported: reference"
      else if negb (Ascii.eqb c " ") && is_space c then
        inl "unsupported: attribute value normalization"
      else goto st (AttrValue name attrs aname quote (c :: acc))
  | AfterValue name attrs =>
      if is_space c then goto st (InTag name attrs)
      else if Ascii.eqb c ">" then opened st name attrs
      else if Ascii.eqb c "/" then goto st (EmptyEnd name attrs)
      else inl "not well-formed: attributes need a space between them"
  | EmptyEnd name attrs =>
      if Ascii.eqb c ">" then opened_closed st name attrs
      else inl "not well-formed: > expected"
  | EndName acc =>
      if is_name_char c || Ascii.eqb c ":" then goto st (EndName (c :: acc))
      else if is_space c then goto st (EndSpace (text_of acc))
      else if Ascii.eqb c ">" then closed (stack st) (finished st) (text_of acc)
      else inl "not well-formed: end tag"
  | EndSpace name =>
      if is_space c then goto st (EndSpace name)
      else if Ascii.eqb c ">" then closed (stack st) (finished st) name
      else inl "not well-formed: end tag"
  end.

Fixpoint run (st : state) (input : list ascii) : string + state :=
  match input with
  | [] => inr st
  | c :: rest =>
      match feed st c with
      | inl e => inl e
      | inr st' => run st' rest
      end
  end.

Definition finish (st : state) : string + node :=
  match now st, stack st, finished st with
  | Content acc, [], Some root =>
      if forallb is_space acc then inr root
      else inl "not well-formed: extra content at the end of the document"
  | Content _, [], None => inl "not well-formed: document is empty"
  | _, _, _ => inl "not well-formed: premature end of data"
  end.

Definition fromstring (xml : bytes) : string + node :=
  match run (mkState [] None (Content [])) (map ascii_of_byte xml) with
  | inl e => inl e
  | inr st => finish st
  end.

End Fragment.

(** ** The vocabulary of the properties *)

Module Doc.

(** [t1 + t2 + ... + tN] *)
Definition strcat (l : list str) : str := fold_right String.append "" l.

Definition is_element (n : node) : bool :=
  match n with
  | Element _ _ _ _ => true
  | _ => false
  end.

(** An abstract-text element: tag [AbstractText], in no namespace. *)
Definition is_abstract_text (n : node) : bool :=
  match n with
  | Element None tag _ _ => String.eqb tag "AbstractText"
  | _ => false
  end.

(** The nodes of a tree in document order. *)
Fixpoint descendants_or_self (n : node) : list node :=
  n :: match n with
       | Element _ _ _ cs => flat_map descendants_or_self cs
       | _ => []
       end.

(** The abstract-text elements of a document, at any depth, in document
    order. *)
Definition abstract_text_elements (root : node) : list node :=
  List.filter is_abstract_text (descendants_or_self root).

(** The text content of an element: the text of all the text nodes below
    it, at any depth, in document order (the string-value of XPath, the
    [textContent] of the DOM). *)
Fixpoint text_content (n : node) : str :=
  match n with
  | Element _ _ _ cs => strcat (map text_content cs)
  | Text s => s
  | _ => ""
  end.

(** The text nodes that are children of a node. *)
Definition text_children (n : node) : list str :=
  flat_map (fun c => match c with Text s => [s] | _ => [] end) (children_of n).

(** The text directly inside an element, without the text of the elements
    nested in it. *)
Definition direct_text (n : node) : str := strcat (text_children n).

Definition has_element_child (n : node) : bool :=
  existsb is_element (children_of n).

(** The text nodes whose parent is an abstract-text element, in document
    order; [inside] tells whether the parent of [n] is one. *)
Fixpoint abstract_text_nodes (inside : bool) (n : node) : list str :=
  match n with
  | Element _ _ _ cs => flat_map (abstract_text_nodes (is_abstract_text n)) cs
  | Text s => if inside then [s] else []
  | _ => []
  end.

Definition lower_char (c : ascii) : ascii :=
  let n := N_of_ascii c in
  if (65 <=? n)%N && (n <=? 90)%N then ascii_of_N (n + 32) else c.

Fixpoint lower (s : string) : string :=
  match s with
  | EmptyString => EmptyString
  | String c rest => String (lower_char c) (lower rest)
  end.

(** An element that is an abstract-text element up to the case of its tag
    and up to its namespace. *)
Definition abstract_text_like (n : node) : bool :=
  match n with
  | Element _ tag _ _ => String.eqb (lower tag) (lower "AbstractText")
  | _ => false
  end.

Definition differently_cased (n : node) : bool :=
  match n with
  | Element _ tag _ _ =>
      String.eqb (lower tag) (lower "AbstractText") && negb (String.eqb tag "AbstractText")
  | _ => false
  end.

Definition namespaced (n : node) : bool :=
  match n with
  | Element (Some _) _ _ _ => true
  | _ => false
  end.

(** [needle in hay] *)
Fixpoint contains (hay needle : string) : bool :=
  String.prefix needle hay ||
  match hay with
  | EmptyString => false
  | String _ rest => contains rest needle
  end.

(** The node at the end of a path of child indices. *)
Fixpoint at_path (n : node) (r : path) : option node :=
  match r with
  | [] => Some n
  | i :: r' =>
      match children_of n !! i with
      | Some c => at_path c r'
      | None => None
      end
  end.

(** The request [fetch_pubmed_xml] is to issue. *)
Definition efetch_request (pmid : str) : Request :=
  mkRequest GET
    (mkURL "https" "eutils.ncbi.nlm.nih.gov" "/entrez/eutils/efetch.fcgi")
    [("db", "pubmed"); ("id", pmid); ("retmode", "xml")]
    None.

(** The request [apply_glida_ner_to_text] is to issue. *)
Definition annotate_request (text : str) : Request :=
  mkRequest POST
    (mkURL "https" "grounding.indra.bio" "/annotate")
    []
    (Some [("text", text)]).

(** The world after one more request. *)
Definition issued (w : world) (req : Request) : world :=
  mkWorld (requests w ++ [req]) (files w).

End Doc.
Export Doc.

(** ** Concrete documents and environments *)

Module Examples.

(** An abstract with inline markup. *)
Definition inline_markup_xml : bytes :=
  bytes_of "<Abstract><AbstractText>Hello <i>world</i>!</AbstractText></Abstract>".

Definition inline_markup_root : node :=
  Element None "Abstract" []
    [Element None "AbstractText" []
       [Text "Hello "; Element None "i" [] [Text "world"]; Text "!"]].

(** An abstract-text element inside another one. *)
Definition nested_xml : bytes :=
  bytes_of "<AbstractText>a<AbstractText>b</AbstractText>c</AbstractText>".

Definition nested_root : node :=
  Element None "AbstractText" []
    [Text "a"; Element None "AbstractText" [] [Text "b"]; Text "c"].

(** A structured abstract, as eFetch returns them, five elements deep. *)
Definition structured_xml : bytes :=
  bytes_of
    ("<PubmedArticleSet><PubmedArticle><MedlineCitation><Article><Abstract>"
     +:+ "<AbstractText Label='BACKGROUND'>Hello </AbstractText>"
     +:+ "<AbstractText Label='METHODS'>world</AbstractText>"
     +:+ "</Abstract></Article></MedlineCitation></PubmedArticle></PubmedArticleSet>").

Definition structured_root : node :=
  Element None "PubmedArticleSet" []
    [Element None "PubmedArticle" []
       [Element None "MedlineCitation" []
          [Element None "Article" []
             [Element None "Abstract" []
                [Element None "AbstractText" [("Label", "BACKGROUND")] [Text "Hello "];
                 Element None "AbstractText" [("Label", "METHODS")] [Text "world"]]]]]].

(** A record without an abstract. *)
Definition no_abstract_xml : bytes :=
  bytes_of "<PubmedArticleSet><PubmedArticle><PMID>12345</PMID></PubmedArticle></PubmedArticleSet>".

(** An end tag that does not match its start tag. *)
Definition malformed_xml : bytes := bytes_of "<a><b></a>".

(** Abstract elements under other names: lower case, upper case, in a
    default namespace, in a prefixed namespace. *)
Definition other_names_xml : bytes :=
  bytes_of
    ("<r><abstracttext>w</abstracttext><ABSTRACTTEXT>x</ABSTRACTTEXT>"
     +:+ "<AbstractText xmlns='urn:a'>y</AbstractText>"
     +:+ "<p:AbstractText xmlns:p='urn:p'>z</p:AbstractText></r>").

Definition other_names_root : node :=
  Element None "r" []
    [Element None "abstracttext" [] [Text "w"];
     Element None "ABSTRACTTEXT" [] [Text "x"];
     Element (Some "urn:a") "AbstractText" [] [Text "y"];
     Element (Some "urn:p") "AbstractText" [] [Text "z"]].

(** A document whose abstract is "Hello world". *)
Definition hello_xml : bytes :=
  bytes_of
    ("<PubmedArticleSet><PubmedArticle><MedlineCitation><Article><Abstract>"
     +:+ "<AbstractText>Hello world</AbstractText>"
     +:+ "</Abstract></Article></MedlineCitation></PubmedArticle></PubmedArticleSet>").

Definition dq : string := String "034" EmptyString.

(** The bytes [{"input": "Hello world"}]. *)
Definition hello_json : bytes :=
  bytes_of ("{" +:+ dq +:+ "input" +:+ dq +:+ ": " +:+ dq +:+ "Hello world" +:+ dq +:+ "}").

Definition is_efetch_for (pmid : str) (req : Request) : bool :=
  match req_method req, req_json req with
  | GET, None =>
      bool_decide (req_url req = EFETCH_URL)
      && bool_decide (req_params req = [("db", "pubmed"); ("id", pmid); ("retmode", "xml")])
  | _, _ => false
  end.

Definition annotated_text (req : Request) : option str :=
  match req_method req, req_json req, req_params req with
  | POST, Some [(k, text)], [] =>
      if bool_decide (req_url req = mkURL "https" "grounding.indra.bio" "/annotate")
         && String.eqb k "text"
      then Some text else None
  | _, _, _ => None
  end.

(** An eFetch that knows article 12345 and a Glida that echoes its input
    for "Hello world". *)
Definition stub_remote (history : list Request) (req : Request)
  : failure + Response :=
  if is_efetch_for "12345" req then inr (mkResponse 200 hello_xml)
  else match annotated_text req with
       | Some text =>
           if String.eqb text "Hello world" then inr (mkResponse 200 hello_json)
           else inr (mkResponse 422 [])
       | None => inr (mkResponse 404 [])
       end.

(** A Glida whose answer changes from one run to the next. *)
Definition changing_remote (history : list Request) (req : Request)
  : failure + Response :=
  if is_efetch_for "12345" req then inr (mkResponse 200 hello_xml)
  else match annotated_text req with
       | Some _ =>
           if Nat.ltb (List.length history) 2 then inr (mkResponse 200 (bytes_of "[1, 2, 3]"))
           else inr (mkResponse 200 hello_json)
       | None => inr (mkResponse 404 [])
       end.

(** Both services answer 500. *)
Definition failing_remote (history : list Request) (req : Request)
  : failure + Response :=
  inr (mkResponse 500 (bytes_of "Internal Server Error")).

(** No connection within the timeout. *)
Definition unreachable_remote (history : list Request) (req : Request)
  : failure + Response :=
  inl (NoResponse ConnectTimeout).

(** eFetch answers with a document that is cut short. *)
Definition truncating_remote (history : list Request) (req : Request)
  : failure + Response :=
  inr (mkResponse 200 malformed_xml).

(** eFetch answers, Glida is down. *)
Definition half_remote (history : list Request) (req : Request)
  : failure + Response :=
  if is_efetch_for "12345" req then inr (mkResponse 200 hello_xml)
  else inr (mkResponse 503 []).

Definition any_path_writable (path : string) : bool := true.

(** Nothing sent, no files. *)
Definition fresh : world := mkWorld [] ∅.

(** A previous run has left a longer file behind. *)
Definition stale : world :=
  mkWorld [] {[ "12345.json" := bytes_of "stale content of a previous run, longer than the new one" ]}.

(** The world once the request for article 12345 has been issued, and once
    its abstract has been sent to Glida as well. *)
Definition after_fetch (w : world) : world := issued w (efetch_request "12345").
Definition after_annotate (w : world) : world :=
  issued (after_fetch w) (annotate_request "Hello world").

End Examples.

(** ** More vocabulary: markup that carries no text, services that do not change *)

Module Markup.

(** The text nodes of a tree, at any depth, in document order. *)
Definition text_nodes (n : node) : list str :=
  flat_map (fun m => match m with Text s => [s] | _ => [] end)
           (descendants_or_self n).

(** A tree without its attributes, comments and processing instructions. *)
Fixpoint plain (n : node) : list node :=
  match n with
  | Element ns tag _ cs => [Element ns tag [] (flat_map plain cs)]
  | Text s => [Text s]
  | Comment _ => []
  | ProcessingInstruction _ _ => []
  end.

(** The exception a failed request ends in: the status hook speaks first,
    when there is a head for it to look at. *)
Definition failure_exn (f : failure) : exn :=
  match f with
  | NoResponse t => TransportError t
  | BrokenBody head b =>
      if is_success head then body_exn b else HTTPStatusError (status_code head)
  end.

(** A service whose answer to a request does not depend on the requests
    issued before it. *)
Definition stable (remote : list Request -> Request -> failure + Response)
  : Prop :=
  forall history history' req, remote history req = remote history' req.

End Markup.
Export Markup.

Module Environments.

Import Examples.

(** The structured abstract of [structured_xml] without its section
    labels. *)
Definition unlabelled_xml : bytes :=
  bytes_of
    ("<PubmedArticleSet><PubmedArticle><MedlineCitation><Article><Abstract>"
     +:+ "<AbstractText>Hello </AbstractText>"
     +:+ "<AbstractText>world</AbstractText>"
     +:+ "</Abstract></Article></MedlineCitation></PubmedArticle></PubmedArticleSet>").

Definition unlabelled_root : node :=
  Element None "PubmedArticleSet" []
    [Element None "PubmedArticle" []
       [Element None "MedlineCitation" []
          [Element None "Article" []
             [Element None "Abstract" []
                [Element None "AbstractText" [] [Text "Hello "];
                 Element None "AbstractText" [] [Text "world"]]]]]].

Definition no_abstract_root : node :=
  Element None "PubmedArticleSet" []
    [Element None "PubmedArticle" [] [Element None "PMID" [] [Text "12345"]]].

(** An eFetch whose record of article 12345 has no abstract, and a Glida
    that answers [[]] to any text. *)
Definition bare_remote (history : list Request) (req : Request)
  : failure + Response :=
  if is_efetch_for "12345" req then inr (mkResponse 200 no_abstract_xml)
  else match annotated_text req with
       | Some _ => inr (mkResponse 200 (bytes_of "[]"))
       | None => inr (mkResponse 404 [])
       end.

(** An eFetch that knows the articles 12345 and 67890, and a Glida that
    answers with the text it was sent. *)
Definition echo_remote (history : list Request) (req : Request)
  : failure + Response :=
  if is_efetch_for "12345" req || is_efetch_for "67890" req
  then inr (mkResponse 200 hello_xml)
  else match annotated_text req with
       | Some text => inr (mkResponse 200 (bytes_of text))
       | None => inr (mkResponse 404 [])
       end.

(** An eFetch that answers 200 and announces an encoding its body is not
    in. *)
Definition garbled_remote (history : list Request) (req : Request)
  : failure + Response :=
  inl (BrokenBody (mkResponse 200 []) Undecodable).

(** An eFetch that is fine and a Glida whose 200 answer breaks off in the
    middle of the body. *)
Definition cut_off_remote (history : list Request) (req : Request)
  : failure + Response :=
  if is_efetch_for "12345" req then inr (mkResponse 200 hello_xml)
  else inl (BrokenBody (mkResponse 200 []) (Interrupted ReadError)).

(** The current directory cannot be written to. *)
Definition read_only (path : string) : bool := false.

(** A directory that holds the output of an earlier run for another
    article and a file of the user. *)
Definition crowded : world :=
  mkWorld [] (<["67890.json" := bytes_of "[]"]> {[ "notes.txt" := bytes_of "keep" ]}).

End Environments.

(** ** Well-formed documents, by their grammar

    A core of the grammar of XML 1.0, without reference to any parser:

      document ::= element
      element  ::= '<' Name '>' content '</' Name '>'  |  '<' Name '/>'
      content  ::= (CharData | element)*

    with the same Name at both ends of an element.  Every document the
    grammar derives is a well-formed XML document; attributes, references,
    comments and the like are left out, so the converse does not hold. *)

Module Grammar.

Definition is_char_data (c : ascii) : bool :=
  Fragment.is_supported c
  && negb (Ascii.eqb c "<") && negb (Ascii.eqb c "&") && negb (Ascii.eqb c ">").

Inductive content : string -> Prop :=
| content_end : content ""
| content_char c s :
    is_char_data c = true -> content s -> content (String c s)
| content_element e s :
    element e -> content s -> content (e +:+ s)
with element : string -> Prop :=
| element_tags name body :
    Fragment.is_ncname name = true -> content body ->
    element ("<" +:+ name +:+ ">" +:+ body +:+ "</" +:+ name +:+ ">")
| element_empty name :
    Fragment.is_ncname name = true ->
    element ("<" +:+ name +:+ "/>").

Definition well_formed (xml : bytes) : Prop :=
  element (string_of_list_byte xml).

(** An abstract inside [depth] elements [a]. *)
Fixpoint nested (depth : nat) : string :=
  match depth with
  | 0 => "<AbstractText>Hello world</AbstractText>"
  | S d => "<a>" +:+ nested d +:+ "</a>"
  end.

(** Nested 3000 deep, and 200 deep. *)
Definition deep_xml : bytes := bytes_of (nested 3000).
Definition shallow_xml : bytes := bytes_of (nested 200).

End Grammar.

(** * Properties *)

(** ** Trees and positions *)

Section Trees.

Lemma node_ind' (P : node -> Prop)
  (HE : forall ns tag attrib cs, Forall P cs -> P (Element ns tag attrib cs))
  (HT : forall s, P (Text s))
  (HC : forall s, P (Comment s))
  (HP : forall t d, P (ProcessingInstruction t d)) :
  forall n, P n.
Proof.
  fix IH 1. intros [ns tag attrib cs | s | s | t d].
  - apply HE. induction cs as [|c cs IHcs]; constructor; [apply IH | exact IHcs].
  - apply HT.
  - apply HC.
  - apply HP.
Qed.

Lemma subtree_unfold p n :
  subtree p n = (p, Inner n) :: forest p 0 (children_of n).
Proof. destruct n; reflexivity. Qed.

Lemma forest_cons p i c cs :
  forest p i (c :: cs) = subtree (p ++ [i]) c ++ forest p (S i) cs.
Proof. reflexivity. Qed.

Lemma In_forest p cs : forall i q x,
  In (q, x) (forest p i cs) <->
  exists j c, cs !! j = Some c /\ In (q, x) (subtree (p ++ [i + j]) c).
Proof.
  induction cs as [|c cs IH]; intros i q x.
  - simpl. split; [tauto | intros (j & c & H & _); discriminate].
  - rewrite forest_cons, in_app_iff, IH. split.
    + intros [H | (j & c' & Hj & H)].
      * exists 0, c. rewrite Nat.add_0_r. auto.
      * exists (S j), c'. rewrite Nat.add_succ_r. auto.
    + intros ([|j] & c' & Hj & H).
      * left. simpl in Hj. injection Hj as ->. now rewrite Nat.add_0_r in H.
      * right. exists j, c'. rewrite Nat.add_succ_r in H. auto.
Qed.

(** The members of [subtree p n] are the nodes of [n], each at its path
    below [p]. *)
Lemma In_subtree n : forall p q x,
  In (q, x) (subtree p n) <->
  exists r m, q = p ++ r /\ x = Inner m /\ at_path n r = Some m.
Proof.
  induction n as [ns tag attrib cs IH | s | s | t d] using node_ind'; intros p q x.
  2-4: rewrite subtree_unfold; simpl; split;
    [ intros [[= <- <-] | []]; eexists [], _; rewrite app_nil_r; auto
    | intros ([|i r] & m & -> & -> & H); simpl in H;
      [ injection H as <-; left; now rewrite app_nil_r
      | try rewrite lookup_nil in H; discriminate ] ].
  rewrite subtree_unfold. simpl children_of. split.
  - intros [[= <- <-] | H].
    + exists [], (Element ns tag attrib cs). rewrite app_nil_r. auto.
    + apply In_forest in H as (j & c & Hj & H). simpl in H.
      rewrite Forall_lookup in IH. apply (IH _ _ Hj) in H as (r & m & -> & -> & Hm).
      exists (j :: r), m. rewrite <- app_assoc. simpl. rewrite Hj. auto.
  - intros ([|j r] & m & -> & -> & H); simpl in H.
    + injection H as <-. left. now rewrite app_nil_r.
    + right. destruct (cs !! j) as [c|] eqn:Hj; [|discriminate].
      apply In_forest. exists j, c. split; [exact Hj|]. simpl.
      rewrite Forall_lookup in IH. apply (IH _ _ Hj).
      exists r, m. rewrite <- app_assoc. auto.
Qed.

Lemma at_path_snoc r : forall n i,
  at_path n (r ++ [i]) =
  match at_path n r with
  | Some m => children_of m !! i
  | None => None
  end.
Proof.
  induction r as [|j r IH]; intros n i; simpl.
  - now destruct (children_of n !! i).
  - destruct (children_of n !! j); [apply IH | reflexivity].
Qed.

End Trees.

(** ** The evaluation of ["//AbstractText/text()"] *)

Section XPath.

Variable root : node.

Lemma In_all_nodes q x :
  In (q, x) (all_nodes root) <->
  (q = [] /\ x = Root [root]) \/
  (exists r m, q = 0 :: r /\ x = Inner m /\ at_path root r = Some m).
Proof.
  unfold all_nodes. simpl. rewrite In_subtree. split.
  - intros [[= <- <-] | (r & m & -> & -> & H)]; [left; auto | right; eauto].
  - intros [[-> ->] | (r & m & -> & -> & H)]; [left; auto | right].
    exists r, m. auto.
Qed.

Lemma filter_all {A} (f : A -> bool) (l : list A) :
  (forall a, In a l -> f a = true) -> List.filter f l = l.
Proof.
  induction l as [|a l IH]; intros H; simpl; [reflexivity|].
  rewrite (H a) by (now left). f_equal. apply IH. intros b Hb. apply H. now right.
Qed.

(** [/descendant-or-self::node()] selects every node of the document. *)
Lemma select_descendant_or_self :
  select root [([], Root [root])] (DescendantOrSelf, AnyNode) = all_nodes root.
Proof.
  unfold select. apply filter_all. intros [q x] _. reflexivity.
Qed.

Lemma on_axis_Child_snoc p q i :
  on_axis Child p (q ++ [i]) = true <-> p = q.
Proof.
  unfold on_axis. rewrite andb_true_iff, !bool_decide_eq_true. split.
  - intros [[k Hk] Hlen]. rewrite length_app in Hlen. simpl in Hlen.
    symmetry. apply (app_inj_1 q p [i] k); [lia | exact Hk].
  - intros ->. split; [now exists [i] | rewrite length_app; simpl; lia].
Qed.

Lemma reaches_Child_snoc ctx q i :
  reaches Child ctx (q ++ [i]) = true <-> exists x, In (q, x) ctx.
Proof.
  unfold reaches. rewrite existsb_exists. split.
  - intros ([p x] & Hin & H). simpl in H. apply on_axis_Child_snoc in H as ->. eauto.
  - intros (x & Hin). exists (q, x). split; [exact Hin|]. now apply on_axis_Child_snoc.
Qed.

Lemma test_node_AbstractText m :
  test_node (NameTest "AbstractText") (Inner m) = is_abstract_text m.
Proof.
  destruct m as [[u|] tag attrib cs | s | s | t d]; simpl; try reflexivity.
  destruct (String.eqb_spec tag "AbstractText") as [-> | Hne].
  - now apply bool_decide_eq_true.
  - now apply bool_decide_eq_false.
Qed.

(** Every node but the root node has its parent among the nodes. *)
Lemma reaches_parent r m :
  at_path root r = Some m -> reaches Child (all_nodes root) (0 :: r) = true.
Proof.
  intros H. destruct r as [|i r' _] using rev_ind.
  - apply (reaches_Child_snoc _ [] 0). exists (Root [root]).
    apply In_all_nodes. left. auto.
  - rewrite at_path_snoc in H. destruct (at_path root r') as [m'|] eqn:Hm'; [|discriminate].
    apply (reaches_Child_snoc _ (0 :: r') i). exists (Inner m').
    apply In_all_nodes. right. eauto.
Qed.

(** [//AbstractText]: the abstract-text elements, wherever they are. *)
Lemma In_select_AbstractText q x :
  In (q, x) (select root (all_nodes root) (Child, NameTest "AbstractText")) <->
  exists r m, q = 0 :: r /\ x = Inner m /\ at_path root r = Some m
              /\ is_abstract_text m = true.
Proof.
  unfold select. rewrite filter_In, In_all_nodes. cbn [fst snd]. split.
  - intros [[[-> ->] | (r & m & -> & -> & H)] Ht].
    + apply andb_true_iff in Ht as [_ Ht]. discriminate.
    + apply andb_true_iff in Ht as [_ Ht]. rewrite test_node_AbstractText in Ht.
      exists r, m. auto.
  - intros (r & m & -> & -> & H & Ht). split; [right; eauto|].
    rewrite (reaches_parent r m H), test_node_AbstractText. exact Ht.
Qed.

Lemma reaches_AbstractText r m i :
  at_path root r = Some m ->
  reaches Child (select root (all_nodes root) (Child, NameTest "AbstractText"))
          ((0 :: r) ++ [i])
  = is_abstract_text m.
Proof.
  intros H. apply eq_true_iff_eq. rewrite reaches_Child_snoc. split.
  - intros (x & Hx). apply In_select_AbstractText in Hx as (r' & m' & [= <-] & _ & H' & Ht).
    congruence.
  - intros Ht. exists (Inner m). apply In_select_AbstractText. exists r, m. auto.
Qed.

End XPath.

(** ** From the location path to a walk over the tree *)

Section Walk.

(** The last step, [/text()], from a node-set [ctx] that holds the parent of
    a node below [p] exactly when that parent is an abstract-text element. *)
Lemma text_step_subtree (ctx : list (path * xnode)) (n : node) :
  forall p inside,
    (forall q m i, In (q, Inner m) (subtree p n) ->
                   reaches Child ctx (q ++ [i]) = is_abstract_text m) ->
    reaches Child ctx p = inside ->
    flat_map unwrap
      (map snd
         (List.filter
            (fun qx => reaches Child ctx (fst qx) && test_node TextTest (snd qx))
            (subtree p n)))
    = map ItemStr (abstract_text_nodes inside n).
Proof.
  induction n as [ns tag attrib cs IH | s | s | t d] using node_ind';
    intros p inside Hctx Hp.
  2: { simpl. rewrite Hp, andb_true_r. now destruct inside. }
  2-3: simpl; now rewrite andb_false_r.
  rewrite subtree_unfold in *. simpl children_of in *.
  cbn [List.filter fst snd test_node]. rewrite andb_false_r.
  cbn [abstract_text_nodes].
  set (self := Element ns tag attrib cs) in *.
  assert (Hkid : forall i, reaches Child ctx (p ++ [i]) = is_abstract_text self)
    by (intros i; apply Hctx; now left).
  assert (Hbelow : forall q m i, In (q, Inner m) (forest p 0 cs) ->
                     reaches Child ctx (q ++ [i]) = is_abstract_text m)
    by (intros q m i H; apply Hctx; now right).
  clearbody self. clear Hctx Hp. revert Hbelow. generalize 0 as k.
  induction cs as [|c cs IHcs]; intros k Hbelow; [reflexivity|].
  apply Forall_cons in IH as [IHc IH].
  rewrite forest_cons, List.filter_app, List.map_app, List.flat_map_app.
  cbn [flat_map]. rewrite List.map_app. f_equal.
  - apply IHc; [|apply Hkid].
    intros q m i H. apply Hbelow. rewrite forest_cons. apply in_or_app. now left.
  - apply IHcs; [exact IH|].
    intros q m i H. apply Hbelow. rewrite forest_cons. apply in_or_app. now right.
Qed.

(** The location path visits the text nodes whose parent is an
    abstract-text element, in document order. *)
Lemma xpath_abstract_text (root : node) :
  xpath root ABSTRACT_TEXT_XPATH = map ItemStr (abstract_text_nodes false root).
Proof.
  unfold xpath, eval_absolute, ABSTRACT_TEXT_XPATH. cbn [fold_left].
  rewrite select_descendant_or_self.
  set (ctx := select root (all_nodes root) (Child, NameTest "AbstractText")).
  unfold select at 1. unfold all_nodes at 1.
  cbn [List.filter fst snd test_node]. rewrite andb_false_r.
  apply text_step_subtree.
  - intros q m i H. apply In_subtree in H as (r & m' & -> & [= <-] & H).
    apply (reaches_AbstractText root r m i H).
  - apply not_true_is_false. intros H.
    apply (reaches_Child_snoc ctx [] 0) in H as [x H].
    apply In_select_AbstractText in H as (r & m & [=] & _).
Qed.

Lemma append_cons c (s t : string) : (String c s +:+ t)%string = String c (s +:+ t).
Proof. reflexivity. Qed.

Lemma append_empty_r (s : string) : (s +:+ "")%string = s.
Proof.
  induction s as [|c s IH]; [reflexivity | now rewrite append_cons, IH].
Qed.

Lemma append_assoc (s t u : string) : ((s +:+ t) +:+ u)%string = (s +:+ t +:+ u)%string.
Proof.
  induction s as [|c s IH]; [reflexivity | now rewrite !append_cons, IH].
Qed.

Lemma strcat_cons s l : strcat (s :: l) = (s +:+ strcat l)%string.
Proof. reflexivity. Qed.

Lemma strcat_app l1 l2 : strcat (l1 ++ l2) = (strcat l1 +:+ strcat l2)%string.
Proof.
  induction l1 as [|s l1 IH]; [reflexivity|].
  rewrite <- app_comm_cons, !strcat_cons, IH. now rewrite append_assoc.
Qed.

(** Joining strings never raises. *)
Lemma join_strs (l : list str) : join "" (map ItemStr l) = Return (strcat l).
Proof.
  induction l as [|s l IH]; [reflexivity|].
  cbn [map join]. destruct l as [|s' l].
  - cbn [map]. rewrite strcat_cons. change (strcat []) with "". now rewrite append_empty_r.
  - cbn [map] in *. rewrite IH. reflexivity.
Qed.

(** The whole of [extract_abstract_from_pubmed_xml]. *)
Lemma extract_abstract_spec (fromstring : bytes -> string + node) (xml : bytes) :
  extract_abstract_from_pubmed_xml fromstring xml =
  match fromstring xml with
  | inl msg => Raise (XMLSyntaxError msg)
  | inr root => Return (strcat (abstract_text_nodes false root))
  end.
Proof.
  unfold extract_abstract_from_pubmed_xml. destruct (fromstring xml) as [msg|root].
  - reflexivity.
  - now rewrite xpath_abstract_text, join_strs.
Qed.

End Walk.

(** ** Abstract-text elements and their text *)

Section AbstractText.

Lemma flat_map_nil {A B} (f : A -> list B) (l : list A) :
  (forall a, In a l -> f a = []) -> flat_map f l = [].
Proof.
  induction l as [|a l IH]; intros H; simpl; [reflexivity|].
  rewrite (H a) by (now left). apply IH. intros b Hb. apply H. now right.
Qed.

Lemma In_descendants_child n c m :
  In c (children_of n) -> In m (descendants_or_self c) -> In m (descendants_or_self n).
Proof.
  intros Hc Hm. destruct n as [ns tag attrib cs | | |]; simpl in Hc; try contradiction.
  simpl. right. apply in_flat_map. eauto.
Qed.

(** Without an abstract-text element there is no text to collect. *)
Lemma abstract_text_nodes_none n :
  (forall m, In m (descendants_or_self n) -> is_abstract_text m = false) ->
  abstract_text_nodes false n = [].
Proof.
  induction n as [ns tag attrib cs IH | s | s | t d] using node_ind'; intros H;
    try reflexivity.
  cbn [abstract_text_nodes]. rewrite (H _ (or_introl eq_refl)).
  apply flat_map_nil. intros c Hc. rewrite Forall_forall in IH.
  apply IH; [now apply list_elem_of_In|].
  intros m Hm. apply H. eapply In_descendants_child; [exact Hc | exact Hm].
Qed.

Lemma no_abstract_text_elements root :
  abstract_text_elements root = [] ->
  forall m, In m (descendants_or_self root) -> is_abstract_text m = false.
Proof.
  intros H m Hm. destruct (is_abstract_text m) eqn:E; [|reflexivity].
  assert (Hin : In m (abstract_text_elements root)) by (apply filter_In; auto).
  rewrite H in Hin. contradiction.
Qed.

(** Children that are not elements: their text is the text below them. *)
Lemma text_only_children cs :
  existsb is_element cs = false ->
  flat_map (abstract_text_nodes true) cs
    = flat_map (fun c => match c with Text s => [s] | _ => [] end) cs
  /\ strcat (map text_content cs)
    = strcat (flat_map (fun c => match c with Text s => [s] | _ => [] end) cs)
  /\ List.filter is_abstract_text (flat_map descendants_or_self cs) = [].
Proof.
  induction cs as [|c cs IH]; intros H; [now repeat split|].
  simpl in H. apply orb_false_iff in H as [Hc H].
  destruct (IH H) as (IH1 & IH2 & IH3).
  destruct c as [ns tag attrib ks | s | s | t d]; try discriminate;
    cbn [flat_map map abstract_text_nodes descendants_or_self text_content
         List.filter is_abstract_text app];
    rewrite ?strcat_cons, IH1, IH2, IH3; repeat split; reflexivity.
Qed.

Lemma text_content_direct e :
  is_element e = true -> has_element_child e = false ->
  text_content e = direct_text e.
Proof.
  destruct e as [ns tag attrib cs | s | s | t d]; intros He H; try discriminate.
  apply (text_only_children cs H).
Qed.

Lemma is_abstract_text_element e : is_abstract_text e = true -> is_element e = true.
Proof. destruct e; [reflexivity | discriminate..]. Qed.

(** When no abstract-text element has a child element, the collected text
    nodes add up to the text contents of the abstract-text elements. *)
Lemma abstract_text_nodes_text_content n :
  (forall m, In m (descendants_or_self n) ->
             is_abstract_text m = true -> has_element_child m = false) ->
  strcat (abstract_text_nodes false n)
  = strcat (map text_content (abstract_text_elements n)).
Proof.
  induction n as [ns tag attrib cs IH | s | s | t d] using node_ind'; intros H;
    try reflexivity.
  set (self := Element ns tag attrib cs) in *.
  assert (E1 : abstract_text_nodes false self
               = flat_map (abstract_text_nodes (is_abstract_text self)) cs)
    by reflexivity.
  assert (E2 : abstract_text_elements self
               = (if is_abstract_text self then [self] else [])
                 ++ List.filter is_abstract_text (flat_map descendants_or_self cs)).
  { unfold abstract_text_elements. subst self.
    cbn [descendants_or_self List.filter]. now destruct (is_abstract_text _). }
  rewrite E1, E2. clear E1 E2. destruct (is_abstract_text self) eqn:Hself.
  - assert (Hkids : existsb is_element cs = false) by (apply (H self); [now left | exact Hself]).
    destruct (text_only_children cs Hkids) as (H1 & H2 & H3).
    rewrite H1, H3. cbn [map app]. rewrite strcat_cons. change (strcat []) with "".
    rewrite append_empty_r. symmetry. exact H2.
  - assert (Hsub : forall c m, In c cs -> In m (descendants_or_self c) ->
                     is_abstract_text m = true -> has_element_child m = false).
    { intros c m Hc Hm. apply H. eapply (In_descendants_child self); [exact Hc | exact Hm]. }
    clearbody self. clear H Hself. cbn [app].
    induction cs as [|c cs IHcs]; [reflexivity|].
    apply Forall_cons in IH as [IHc IH].
    cbn [flat_map]. rewrite List.filter_app, List.map_app, !strcat_app. f_equal.
    + apply IHc. intros m Hm. apply (Hsub c); [now left | exact Hm].
    + apply IHcs; [exact IH|]. intros c' m Hc'. apply Hsub. now right.
Qed.

End AbstractText.

(** ** The Abstract Extractor *)

Section Extractor.

Variable fromstring : bytes -> string + node.



Lemma is_abstract_text_exact e :
  is_abstract_text e = true ->
  abstract_text_like e = true /\ differently_cased e = false /\ namespaced e = false.
Proof.
  destruct e as [[u|] tag attrib cs | s | s | t d]; try discriminate.
  cbn [is_abstract_text abstract_text_like differently_cased namespaced].
  intros H. rewrite H. apply String.eqb_eq in H as ->. repeat split.
Qed.


End Extractor.

Import Examples.
Import Environments.




Lemma content_chars (s : string) :
  forallb Grammar.is_char_data (list_ascii_of_string s) = true -> Grammar.content s.
Proof.
  induction s as [|c s IH]; intros H; [constructor|].
  cbn [list_ascii_of_string forallb] in H. apply andb_true_iff in H as [Hc Hs].
  constructor; auto.
Qed.

Lemma nested_element (depth : nat) : Grammar.element (Grammar.nested depth).
Proof.
  induction depth as [|d IH]; cbn [Grammar.nested].
  - apply (Grammar.element_tags "AbstractText" "Hello world"); [reflexivity|].
    apply content_chars. reflexivity.
  - apply (Grammar.element_tags "a" (Grammar.nested d)); [reflexivity|].
    rewrite <- (append_empty_r (Grammar.nested d)).
    apply Grammar.content_element; [exact IH | constructor].
Qed.



(** C9.  [extract_abstract_from_pubmed_xml] returns the text nodes that are
    children of AbstractText elements and nothing else; there is a
    well-formed document in which an AbstractText element has a child
    element with text inside, and that text is absent from the result. *)
Theorem extract_abstract_direct_text_only :
  (forall (fromstring : bytes -> string + node) (xml : bytes),
     extract_abstract_from_pubmed_xml fromstring xml =
     match fromstring xml with
     | inl msg => Raise (XMLSyntaxError msg)
     | inr root => Return (strcat (abstract_text_nodes false root))
     end)
  /\ (exists xml root outer inner s,
        Fragment.fromstring xml = inr root
        /\ In outer (abstract_text_elements root)
        /\ In inner (children_of outer)
        /\ is_element inner = true
        /\ text_content inner = "world"
        /\ extract_abstract_from_pubmed_xml Fragment.fromstring xml = Return s
        /\ s = "Hello !"
        /\ contains s "world" = false).
Proof.
  split; [exact extract_abstract_spec|].
  exists inline_markup_xml, inline_markup_root,
         (Element None "AbstractText" []
            [Text "Hello "; Element None "i" [] [Text "world"]; Text "!"]),
         (Element None "i" [] [Text "world"]), "Hello !".
  repeat split; try (vm_compute; reflexivity).
  - left. reflexivity.
  - right. left. reflexivity.
Qed.

(** ** The two network calls *)

Section Network.

Variable remote : list Request -> Request -> failure + Response.

(** What a call makes of the answer of the network. *)
Lemma run_DefaultClient_hooks base (r : Response) :
  run_hooks (event_hooks_response (DefaultClient base)) r
  = if is_success r then Return r else Raise (HTTPStatusError (status_code r)).
Proof.
  cbn [DefaultClient event_hooks_response run_hooks]. unfold raise_for_status.
  now destruct (is_success r).
Qed.

Lemma fetch_pubmed_xml_spec (pmid : str) (w : world) :
  fetch_pubmed_xml remote pmid w =
  (match remote (requests w) (efetch_request pmid) with
   | inl (NoResponse failure) => Raise (TransportError failure)
   | inl (BrokenBody head failure) =>
       if is_success head then Raise (body_exn failure)
       else Raise (HTTPStatusError (status_code head))
   | inr r => if is_success r then Return (content r)
              else Raise (HTTPStatusError (status_code r))
   end,
   issued w (efetch_request pmid)).
Proof.
  unfold fetch_pubmed_xml, get, request, bind, ret. cbv zeta.
  change (mkRequest GET (merge_url (base_url (DefaultClient None)) EFETCH_URL)
            [("db", "pubmed"); ("id", pmid); ("retmode", "xml")] None)
    with (efetch_request pmid).
  fold (issued w (efetch_request pmid)).
  destruct (remote (requests w) (efetch_request pmid)) as [[failure|head failure]|r];
    [reflexivity | |]; rewrite run_DefaultClient_hooks; now destruct (is_success _).
Qed.

Lemma apply_glida_ner_to_text_spec (text : str) (w : world) :
  apply_glida_ner_to_text remote text w =
  (match remote (requests w) (annotate_request text) with
   | inl (NoResponse failure) => Raise (TransportError failure)
   | inl (BrokenBody head failure) =>
       if is_success head then Raise (body_exn failure)
       else Raise (HTTPStatusError (status_code head))
   | inr r => if is_success r then Return (content r)
              else Raise (HTTPStatusError (status_code r))
   end,
   issued w (annotate_request text)).
Proof.
  unfold apply_glida_ner_to_text, post, request, bind, ret. cbv zeta.
  change (mkRequest POST
            (merge_url (base_url (DefaultClient (Some GLIDA_BASE_URL)))
               GLIDA_ANNOTATE_ENDPOINT)
            [] (Some [("text", text)]))
    with (annotate_request text).
  fold (issued w (annotate_request text)).
  destruct (remote (requests w) (annotate_request text)) as [[failure|head failure]|r];
    [reflexivity | |]; rewrite run_DefaultClient_hooks; now destruct (is_success _).
Qed.

Lemma error_status_not_success (r : Response) :
  (400 <= status_code r <= 599)%Z -> is_success r = false.
Proof. unfold is_success. lia. Qed.

Lemma success_status (r : Response) :
  (200 <= status_code r <= 299)%Z -> is_success r = true.
Proof. unfold is_success. lia. Qed.

(** C6.  [fetch_pubmed_xml] issues exactly one request, whatever comes of
    it: a GET to the eFetch endpoint whose query parameters are the three
    pairs db=pubmed, id=<the identifier>, retmode=xml.  It changes no file.
    When the response is a success and its body has been read, the body is
    returned as it is. *)
Theorem fetch_pubmed_xml_one_GET (pmid : str) (w : world) :
  let req :=
    mkRequest GET
      (mkURL "https" "eutils.ncbi.nlm.nih.gov" "/entrez/eutils/efetch.fcgi")
      [("db", "pubmed"); ("id", pmid); ("retmode", "xml")]
      None in
  requests (snd (fetch_pubmed_xml remote pmid w)) = requests w ++ [req]
  /\ files (snd (fetch_pubmed_xml remote pmid w)) = files w
  /\ fst (fetch_pubmed_xml remote pmid w) =
     match remote (requests w) req with
     | inl (NoResponse failure) => Raise (TransportError failure)
     | inl (BrokenBody head failure) =>
         if is_success head then Raise (body_exn failure)
         else Raise (HTTPStatusError (status_code head))
     | inr r => if is_success r then Return (content r)
                else Raise (HTTPStatusError (status_code r))
     end.
Proof.
  rewrite fetch_pubmed_xml_spec. repeat split.
Qed.

(** C7.  [apply_glida_ner_to_text] issues exactly one request, whatever
    comes of it and whatever the text, the empty string included: a POST to
    the annotate endpoint of Glida whose JSON body is the object with the
    single member "text", the text itself.  It changes no file.  When the
    response is a success and its body has been read, the body is returned
    as it is. *)
Theorem apply_glida_ner_to_text_one_POST (text : str) (w : world) :
  let req :=
    mkRequest POST
      (mkURL "https" "grounding.indra.bio" "/annotate")
      []
      (Some [("text", text)]) in
  requests (snd (apply_glida_ner_to_text remote text w)) = requests w ++ [req]
  /\ files (snd (apply_glida_ner_to_text remote text w)) = files w
  /\ fst (apply_glida_ner_to_text remote text w) =
     match remote (requests w) req with
     | inl (NoResponse failure) => Raise (TransportError failure)
     | inl (BrokenBody head failure) =>
         if is_success head then Raise (body_exn failure)
         else Raise (HTTPStatusError (status_code head))
     | inr r => if is_success r then Return (content r)
                else Raise (HTTPStatusError (status_code r))
     end.
Proof.
  rewrite apply_glida_ner_to_text_spec. repeat split.
Qed.

End Network.

(** ** The Orchestrator *)

Section Orchestrator.

Variable remote : list Request -> Request -> failure + Response.
Variable writable : string -> bool.
Variable fromstring : bytes -> string + node.

Abbreviation fetch := (fetch_pubmed_xml remote).
Abbreviation extract := (extract_abstract_from_pubmed_xml fromstring).
Abbreviation annotate := (apply_glida_ner_to_text remote).
Abbreviation run := (main remote writable fromstring).

(** Rewrite with the outcome of a stage and take the branch it selects. *)
Local Ltac stage H := rewrite H; cbv beta iota delta [Return Raise].

(** [main], stage by stage. *)
Lemma main_spec (pmid : str) (w : world) :
  run pmid w =
  match fetch pmid w with
  | (inl e, w1) => (Raise e, w1)
  | (inr pubmed_xml, w1) =>
      match extract pubmed_xml with
      | inl e => (Raise e, w1)
      | inr abstract =>
          match annotate abstract w1 with
          | (inl e, w2) => (Raise e, w2)
          | (inr glida_ner_json, w2) =>
              if writable (pmid +:+ ".json")
              then (Return tt,
                    mkWorld (requests w2)
                            (<[pmid +:+ ".json" := glida_ner_json]> (files w2)))
              else (Raise (OSError (pmid +:+ ".json")), w2)
          end
      end
  end.
Proof.
  unfold main, bind, lift, write_bytes, ret.
  destruct (fetch pmid w) as [[e|pubmed_xml] w1]; [reflexivity|].
  destruct (extract pubmed_xml) as [e|abstract]; [reflexivity|].
  destruct (annotate abstract w1) as [[e|glida_ner_json] w2]; [reflexivity|].
  now destruct (writable (pmid +:+ ".json")).
Qed.

Lemma fetch_files pmid w r w1 : fetch pmid w = (r, w1) -> files w1 = files w.
Proof. rewrite fetch_pubmed_xml_spec. now intros [= _ <-]. Qed.

Lemma annotate_files text w r w1 : annotate text w = (r, w1) -> files w1 = files w.
Proof. rewrite apply_glida_ner_to_text_spec. now intros [= _ <-]. Qed.

(** C2.  When the three stages succeed, [main] does one thing more: it
    writes the bytes the Annotation Client returned, as they are, to
    [<identifier>.json].  Once the operating system lets the file be
    opened, [main] returns, the file holds exactly those bytes, whatever it
    held before, and no other file has changed. *)
Theorem main_writes_annotation
  (pmid : str) (w w1 w2 : world) (pubmed_xml glida_ner_json : bytes) (abstract : str) :
  fetch pmid w = (Return pubmed_xml, w1) ->
  extract pubmed_xml = Return abstract ->
  annotate abstract w1 = (Return glida_ner_json, w2) ->
  run pmid w
    = (_ <- write_bytes writable (pmid +:+ ".json") glida_ner_json ;; ret tt) w2
  /\ (writable (pmid +:+ ".json") = true ->
      exists w3,
        run pmid w = (Return tt, w3)
        /\ files w3 !! (pmid +:+ ".json") = Some glida_ner_json
        /\ files w3 = <[pmid +:+ ".json" := glida_ner_json]> (files w)
        /\ forall other, other <> pmid +:+ ".json" -> files w3 !! other = files w !! other).
Proof.
  intros Hfetch Hextract Hannotate.
  rewrite main_spec; stage Hfetch; stage Hextract; stage Hannotate.
  apply fetch_files in Hfetch. apply annotate_files in Hannotate.
  unfold bind, write_bytes, ret. split.
  - now destruct (writable (pmid +:+ ".json")).
  - intros ->. eexists. split; [reflexivity|]. cbn [files].
    rewrite Hannotate, Hfetch. split; [apply lookup_insert_eq|]. split; [reflexivity|].
    intros other Hother. now apply lookup_insert_ne.
Qed.

(** C3.  When the Metadata Fetcher, the Abstract Extractor or the
    Annotation Client raises, [main] raises that very error and leaves every
    file as it was: [<identifier>.json] is neither created nor modified. *)
Theorem main_propagates_stage_errors (pmid : str) (w : world) (e : exn) :
  (forall w1,
     fetch pmid w = (Raise e, w1) ->
     run pmid w = (Raise e, w1) /\ files w1 = files w)
  /\ (forall w1 pubmed_xml,
        fetch pmid w = (Return pubmed_xml, w1) ->
        extract pubmed_xml = Raise e ->
        run pmid w = (Raise e, w1) /\ files w1 = files w)
  /\ (forall w1 w2 pubmed_xml abstract,
        fetch pmid w = (Return pubmed_xml, w1) ->
        extract pubmed_xml = Return abstract ->
        annotate abstract w1 = (Raise e, w2) ->
        run pmid w = (Raise e, w2) /\ files w2 = files w).
Proof.
  split; [|split].
  - intros w1 Hfetch. rewrite main_spec; stage Hfetch. split; [reflexivity|].
    now apply fetch_files in Hfetch.
  - intros w1 pubmed_xml Hfetch Hextract. rewrite main_spec; stage Hfetch; stage Hextract.
    split; [reflexivity|]. now apply fetch_files in Hfetch.
  - intros w1 w2 pubmed_xml abstract Hfetch Hextract Hannotate.
    rewrite main_spec; stage Hfetch; stage Hextract; stage Hannotate. split; [reflexivity|].
    apply fetch_files in Hfetch. apply annotate_files in Hannotate. congruence.
Qed.

(** C4 (amended).  For the GET of [fetch_pubmed_xml] and the POST of
    [apply_glida_ner_to_text] alike: a response with a 4xx or 5xx status
    raises [HTTPStatusError], whether or not its body can be read; a failure
    to connect or a timeout raises [TransportError]; a response with a 2xx
    status whose body cannot be read or decoded raises [DecodingError] or
    the [TransportError] of the read.  All of these are
    [RemoteServiceError]s; the error leaves the function and [main], and the
    request has been issued once, with nothing after it.  A response with a
    2xx status whose body has been read raises nothing and its body is
    returned. *)
Theorem remote_errors_propagate (pmid text : str) (w : world) :
  (forall r,
     (remote (requests w) (efetch_request pmid) = inr r
      \/ exists f, remote (requests w) (efetch_request pmid) = inl (BrokenBody r f)) ->
     (400 <= status_code r <= 599)%Z ->
     RemoteServiceError (HTTPStatusError (status_code r)) = true
     /\ fetch pmid w
        = (Raise (HTTPStatusError (status_code r)), issued w (efetch_request pmid))
     /\ run pmid w
        = (Raise (HTTPStatusError (status_code r)), issued w (efetch_request pmid)))
  /\ (forall failure,
        remote (requests w) (efetch_request pmid) = inl (NoResponse failure) ->
        RemoteServiceError (TransportError failure) = true
        /\ fetch pmid w = (Raise (TransportError failure), issued w (efetch_request pmid))
        /\ run pmid w = (Raise (TransportError failure), issued w (efetch_request pmid)))
  /\ (forall head failure,
        remote (requests w) (efetch_request pmid) = inl (BrokenBody head failure) ->
        (200 <= status_code head <= 299)%Z ->
        RemoteServiceError (body_exn failure) = true
        /\ fetch pmid w = (Raise (body_exn failure), issued w (efetch_request pmid))
        /\ run pmid w = (Raise (body_exn failure), issued w (efetch_request pmid)))
  /\ (forall r,
        remote (requests w) (efetch_request pmid) = inr r ->
        (200 <= status_code r <= 299)%Z ->
        fetch pmid w = (Return (content r), issued w (efetch_request pmid)))
  /\ (forall r,
        (remote (requests w) (annotate_request text) = inr r
         \/ exists f, remote (requests w) (annotate_request text) = inl (BrokenBody r f)) ->
        (400 <= status_code r <= 599)%Z ->
        RemoteServiceError (HTTPStatusError (status_code r)) = true
        /\ annotate text w
           = (Raise (HTTPStatusError (status_code r)), issued w (annotate_request text))
        /\ forall w0 pubmed_xml,
             fetch pmid w0 = (Return pubmed_xml, w) ->
             extract pubmed_xml = Return text ->
             run pmid w0
             = (Raise (HTTPStatusError (status_code r)), issued w (annotate_request text)))
  /\ (forall failure,
        remote (requests w) (annotate_request text) = inl (NoResponse failure) ->
        RemoteServiceError (TransportError failure) = true
        /\ annotate text w
           = (Raise (TransportError failure), issued w (annotate_request text))
        /\ forall w0 pubmed_xml,
             fetch pmid w0 = (Return pubmed_xml, w) ->
             extract pubmed_xml = Return text ->
             run pmid w0
             = (Raise (TransportError failure), issued w (annotate_request text)))
  /\ (forall head failure,
        remote (requests w) (annotate_request text) = inl (BrokenBody head failure) ->
        (200 <= status_code head <= 299)%Z ->
        RemoteServiceError (body_exn failure) = true
        /\ annotate text w
           = (Raise (body_exn failure), issued w (annotate_request text))
        /\ forall w0 pubmed_xml,
             fetch pmid w0 = (Return pubmed_xml, w) ->
             extract pubmed_xml = Return text ->
             run pmid w0
             = (Raise (body_exn failure), issued w (annotate_request text)))
  /\ (forall r,
        remote (requests w) (annotate_request text) = inr r ->
        (200 <= status_code r <= 299)%Z ->
        annotate text w = (Return (content r), issued w (annotate_request text))).
Proof.
  assert (Hbody : forall f, RemoteServiceError (body_exn f) = true) by (now intros []).
  repeat apply conj.
  - intros r Hr Hstatus. apply error_status_not_success in Hstatus.
    assert (Hfetch := fetch_pubmed_xml_spec remote pmid w).
    destruct Hr as [Hr | [f Hr]]; rewrite Hr, Hstatus in Hfetch;
      (rewrite main_spec; stage Hfetch; auto).
  - intros failure Hr.
    assert (Hfetch := fetch_pubmed_xml_spec remote pmid w). rewrite Hr in Hfetch.
    rewrite main_spec; stage Hfetch. auto.
  - intros head failure Hr Hstatus. apply success_status in Hstatus.
    assert (Hfetch := fetch_pubmed_xml_spec remote pmid w). rewrite Hr, Hstatus in Hfetch.
    rewrite main_spec; stage Hfetch. auto.
  - intros r Hr Hstatus. apply success_status in Hstatus.
    rewrite fetch_pubmed_xml_spec, Hr, Hstatus. reflexivity.
  - intros r Hr Hstatus. apply error_status_not_success in Hstatus.
    assert (Hann := apply_glida_ner_to_text_spec remote text w).
    destruct Hr as [Hr | [f Hr]]; rewrite Hr, Hstatus in Hann;
      (split; [reflexivity|]; split; [exact Hann|];
       intros w0 pubmed_xml Hfetch Hextract;
       rewrite main_spec; stage Hfetch; stage Hextract; stage Hann; reflexivity).
  - intros failure Hr.
    assert (Hann := apply_glida_ner_to_text_spec remote text w). rewrite Hr in Hann.
    split; [reflexivity|]. split; [exact Hann|].
    intros w0 pubmed_xml Hfetch Hextract.
    rewrite main_spec; stage Hfetch; stage Hextract; stage Hann. reflexivity.
  - intros head failure Hr Hstatus. apply success_status in Hstatus.
    assert (Hann := apply_glida_ner_to_text_spec remote text w). rewrite Hr, Hstatus in Hann.
    split; [apply Hbody|]. split; [exact Hann|].
    intros w0 pubmed_xml Hfetch Hextract.
    rewrite main_spec; stage Hfetch; stage Hextract; stage Hann. reflexivity.
  - intros r Hr Hstatus. apply success_status in Hstatus.
    rewrite apply_glida_ner_to_text_spec, Hr, Hstatus. reflexivity.
Qed.

Lemma main_returns_inv (pmid : str) (w w' : world) :
  run pmid w = (Return tt, w') ->
  writable (pmid +:+ ".json") = true
  /\ exists w1 w2 pubmed_xml abstract glida_ner_json,
       fetch pmid w = (Return pubmed_xml, w1)
       /\ extract pubmed_xml = Return abstract
       /\ annotate abstract w1 = (Return glida_ner_json, w2)
       /\ files w' = <[pmid +:+ ".json" := glida_ner_json]> (files w).
Proof.
  rewrite main_spec.
  destruct (fetch pmid w) as [[e|pubmed_xml] w1] eqn:Hfetch; [discriminate|].
  destruct (extract pubmed_xml) as [e|abstract] eqn:Hextract; [discriminate|].
  destruct (annotate abstract w1) as [[e|glida_ner_json] w2] eqn:Hannotate; [discriminate|].
  destruct (writable (pmid +:+ ".json")); [|discriminate].
  intros [= <-]. split; [reflexivity|].
  exists w1, w2, pubmed_xml, abstract, glida_ner_json.
  split; [reflexivity|]. split; [exact Hextract|]. split; [exact Hannotate|].
  cbn [files]. apply fetch_files in Hfetch. apply annotate_files in Hannotate. congruence.
Qed.

(** C8.  After a successful run, a second run with the same identifier whose
    three stages succeed returns as well, the file being there is no
    obstacle, and leaves [<identifier>.json] with exactly the bytes of the
    second run: the file is replaced, nothing of the first run remains. *)
Theorem main_overwrites
  (pmid : str) (w w1 wa wb : world) (pubmed_xml glida_ner_json : bytes) (abstract : str) :
  run pmid w = (Return tt, w1) ->
  fetch pmid w1 = (Return pubmed_xml, wa) ->
  extract pubmed_xml = Return abstract ->
  annotate abstract wa = (Return glida_ner_json, wb) ->
  is_Some (files w1 !! (pmid +:+ ".json"))
  /\ exists w2,
       run pmid w1 = (Return tt, w2)
       /\ files w2 !! (pmid +:+ ".json") = Some glida_ner_json
       /\ files w2 = <[pmid +:+ ".json" := glida_ner_json]> (files w).
Proof.
  intros Hfirst Hfetch Hextract Hannotate.
  apply main_returns_inv in Hfirst as (Hw & w1' & w2' & x1 & a1 & j1 & _ & _ & _ & Hfiles1).
  split; [rewrite Hfiles1, lookup_insert_eq; eauto|].
  rewrite main_spec; stage Hfetch; stage Hextract; stage Hannotate; rewrite Hw.
  eexists. split; [reflexivity|]. cbn [files].
  apply fetch_files in Hfetch. apply annotate_files in Hannotate.
  rewrite Hannotate, Hfetch, Hfiles1. split; [apply lookup_insert_eq|].
  apply insert_insert_eq.
Qed.

End Orchestrator.

(** ** The pipeline on concrete environments *)

(** Identifier 12345, an abstract "Hello world" and an annotator that
    answers [{"input": "Hello world"}]: the run produces [12345.json] with
    exactly these bytes, in an empty directory and over a stale file. *)
Lemma main_writes_annotation_witness :
  (fetch_pubmed_xml stub_remote "12345" fresh = (Return hello_xml, after_fetch fresh)
   /\ extract_abstract_from_pubmed_xml Fragment.fromstring hello_xml = Return "Hello world"
   /\ apply_glida_ner_to_text stub_remote "Hello world" (after_fetch fresh)
      = (Return hello_json, after_annotate fresh)
   /\ any_path_writable "12345.json" = true)
  /\ (exists w3,
        main stub_remote any_path_writable Fragment.fromstring "12345" fresh = (Return tt, w3)
        /\ files w3 !! "12345.json" = Some hello_json)
  /\ (exists w3,
        main stub_remote any_path_writable Fragment.fromstring "12345" stale = (Return tt, w3)
        /\ files w3 !! "12345.json" = Some hello_json).
Proof.
  assert (Hextract : extract_abstract_from_pubmed_xml Fragment.fromstring hello_xml
                     = Return "Hello world") by (vm_compute; reflexivity).
  assert (Hfetch : forall w, requests w = [] ->
            fetch_pubmed_xml stub_remote "12345" w = (Return hello_xml, after_fetch w)).
  { intros [rs fs] Hrs. simpl in Hrs. subst rs. vm_compute. reflexivity. }
  assert (Hannotate : forall w, requests w = [] ->
            apply_glida_ner_to_text stub_remote "Hello world" (after_fetch w)
            = (Return hello_json, after_annotate w)).
  { intros [rs fs] Hrs. simpl in Hrs. subst rs. vm_compute. reflexivity. }
  split; [|split].
  - repeat apply conj; [apply Hfetch | exact Hextract | apply Hannotate | ]; reflexivity.
  - destruct (main_writes_annotation stub_remote any_path_writable Fragment.fromstring
                "12345" fresh _ _ hello_xml hello_json "Hello world"
                (Hfetch fresh eq_refl) Hextract (Hannotate fresh eq_refl))
      as [_ H].
    destruct (H eq_refl) as (w3 & Hrun & Hfile & _). exists w3. split; assumption.
  - destruct (main_writes_annotation stub_remote any_path_writable Fragment.fromstring
                "12345" stale _ _ hello_xml hello_json "Hello world"
                (Hfetch stale eq_refl) Hextract (Hannotate stale eq_refl))
      as [_ H].
    destruct (H eq_refl) as (w3 & Hrun & Hfile & _). exists w3. split; assumption.
Defined.

(** A 500 from eFetch, a document cut short, a 503 from Glida: each time
    [main] raises the error of the stage and the stale file stays. *)
Lemma main_propagates_stage_errors_witness :
  (main failing_remote any_path_writable Fragment.fromstring "12345" stale
   = (Raise (HTTPStatusError 500), after_fetch stale)
   /\ files (after_fetch stale) = files stale)
  /\ (main truncating_remote any_path_writable Fragment.fromstring "12345" stale
      = (Raise (XMLSyntaxError "not well-formed: opening and ending tag mismatch"),
         after_fetch stale)
      /\ files (after_fetch stale) = files stale)
  /\ (main half_remote any_path_writable Fragment.fromstring "12345" stale
      = (Raise (HTTPStatusError 503), after_annotate stale)
      /\ files (after_annotate stale) = files stale).
Proof.
  split; [|split].
  - apply (main_propagates_stage_errors failing_remote any_path_writable
             Fragment.fromstring "12345" stale (HTTPStatusError 500)).
    vm_compute. reflexivity.
  - apply (main_propagates_stage_errors truncating_remote any_path_writable
             Fragment.fromstring "12345" stale
             (XMLSyntaxError "not well-formed: opening and ending tag mismatch"))
      with (pubmed_xml := malformed_xml); vm_compute; reflexivity.
  - apply (main_propagates_stage_errors half_remote any_path_writable
             Fragment.fromstring "12345" stale (HTTPStatusError 503))
      with (w1 := after_fetch stale) (pubmed_xml := hello_xml) (abstract := "Hello world");
      vm_compute; reflexivity.
Defined.

(** HTTP 500 for either call, a connection that times out, a 200 whose
    body breaks off. *)
Lemma remote_errors_propagate_witness :
  (fetch_pubmed_xml failing_remote "12345" fresh
   = (Raise (HTTPStatusError 500), after_fetch fresh)
   /\ main failing_remote any_path_writable Fragment.fromstring "12345" fresh
      = (Raise (HTTPStatusError 500), after_fetch fresh))
  /\ (fetch_pubmed_xml unreachable_remote "12345" fresh
      = (Raise (TransportError ConnectTimeout), after_fetch fresh)
      /\ main unreachable_remote any_path_writable Fragment.fromstring "12345" fresh
         = (Raise (TransportError ConnectTimeout), after_fetch fresh))
  /\ (apply_glida_ner_to_text half_remote "Hello world" (after_fetch fresh)
      = (Raise (HTTPStatusError 503), after_annotate fresh)
      /\ main half_remote any_path_writable Fragment.fromstring "12345" fresh
         = (Raise (HTTPStatusError 503), after_annotate fresh))
  /\ (apply_glida_ner_to_text cut_off_remote "Hello world" (after_fetch fresh)
      = (Raise (TransportError ReadError), after_annotate fresh)
      /\ main cut_off_remote any_path_writable Fragment.fromstring "12345" fresh
         = (Raise (TransportError ReadError), after_annotate fresh))
  /\ fetch_pubmed_xml stub_remote "12345" fresh = (Return hello_xml, after_fetch fresh).
Proof.
  split; [|split; [|split; [|split]]].
  - destruct (remote_errors_propagate failing_remote any_path_writable Fragment.fromstring
                "12345" "" fresh) as (H & _).
    destruct (H (mkResponse 500 (bytes_of "Internal Server Error")) (or_introl eq_refl))
      as (_ & Hfetch & Hrun); [vm_compute; split; discriminate|].
    split; [exact Hfetch | exact Hrun].
  - destruct (remote_errors_propagate unreachable_remote any_path_writable
                Fragment.fromstring "12345" "" fresh) as (_ & H & _).
    destruct (H ConnectTimeout eq_refl) as (_ & Hfetch & Hrun).
    split; [exact Hfetch | exact Hrun].
  - destruct (remote_errors_propagate half_remote any_path_writable Fragment.fromstring
                "12345" "Hello world" (after_fetch fresh)) as (_ & _ & _ & _ & H & _).
    assert (Hr : half_remote (requests (after_fetch fresh)) (annotate_request "Hello world")
                 = inr (mkResponse 503 [])) by (vm_compute; reflexivity).
    destruct (H (mkResponse 503 []) (or_introl Hr))
      as (_ & Hann & Hrun); [vm_compute; split; discriminate|].
    split; [exact Hann|].
    apply (Hrun fresh hello_xml); vm_compute; reflexivity.
  - destruct (remote_errors_propagate cut_off_remote any_path_writable Fragment.fromstring
                "12345" "Hello world" (after_fetch fresh))
      as (_ & _ & _ & _ & _ & _ & H & _).
    assert (Hr : cut_off_remote (requests (after_fetch fresh)) (annotate_request "Hello world")
                 = inl (BrokenBody (mkResponse 200 []) (Interrupted ReadError)))
      by (vm_compute; reflexivity).
    destruct (H (mkResponse 200 []) (Interrupted ReadError) Hr)
      as (_ & Hann & Hrun); [vm_compute; split; discriminate|].
    split; [exact Hann|].
    apply (Hrun fresh hello_xml); vm_compute; reflexivity.
  - destruct (remote_errors_propagate stub_remote any_path_writable Fragment.fromstring
                "12345" "" fresh) as (_ & _ & _ & H & _).
    apply (H (mkResponse 200 hello_xml)); [vm_compute; reflexivity|].
    vm_compute. split; discriminate.
Defined.

(** A response with status 200 and an error all the same: the head
    arrives, the status hook passes, and the body does not decode. *)
Lemma remote_errors_propagate_counterexample :
  garbled_remote (requests fresh) (efetch_request "12345")
  = inl (BrokenBody (mkResponse 200 []) Undecodable)
  /\ (200 <= status_code (mkResponse 200 []) <= 299)%Z
  /\ fetch_pubmed_xml garbled_remote "12345" fresh
     = (Raise DecodingError, after_fetch fresh)
  /\ main garbled_remote any_path_writable Fragment.fromstring "12345" fresh
     = (Raise DecodingError, after_fetch fresh)
  /\ forall body, fetch_pubmed_xml garbled_remote "12345" fresh
                  <> (Return body, after_fetch fresh).
Proof.
  split; [reflexivity|]. split; [vm_compute; split; discriminate|].
  split; [vm_compute; reflexivity|]. split; [vm_compute; reflexivity|].
  intros body H. vm_compute in H. discriminate.
Qed.

(** A first run stores [[1, 2, 3]]; the second run, with the same
    identifier, gets another answer and the file holds that answer alone. *)
Lemma main_overwrites_witness :
  exists w1 w2,
    main changing_remote any_path_writable Fragment.fromstring "12345" fresh = (Return tt, w1)
    /\ files w1 !! "12345.json" = Some (bytes_of "[1, 2, 3]")
    /\ main changing_remote any_path_writable Fragment.fromstring "12345" w1 = (Return tt, w2)
    /\ files w2 !! "12345.json" = Some hello_json.
Proof.
  set (w1 := mkWorld [efetch_request "12345"; annotate_request "Hello world"]
                     (<["12345.json" := bytes_of "[1, 2, 3]"]> ∅)).
  assert (Hfirst : main changing_remote any_path_writable Fragment.fromstring "12345" fresh
                   = (Return tt, w1)) by (vm_compute; reflexivity).
  destruct (main_overwrites changing_remote any_path_writable Fragment.fromstring
              "12345" fresh w1 (after_fetch w1)
              (issued (after_fetch w1) (annotate_request "Hello world"))
              hello_xml hello_json "Hello world" Hfirst)
    as (_ & w2 & Hsecond & Hfile & _); try (vm_compute; reflexivity).
  exists w1, w2. split; [exact Hfirst|]. split; [vm_compute; reflexivity|].
  split; [exact Hsecond | exact Hfile].
Defined.

(** ** The anatomy of a run *)

Section Anatomy.

Variable remote : list Request -> Request -> failure + Response.
Variable writable : string -> bool.
Variable fromstring : bytes -> string + node.

Abbreviation run' := (main remote writable fromstring).

(** Every way a run can go, in terms of what the network answers, what the
    parser makes of the document and what the operating system allows. *)
Lemma main_anatomy (pmid : str) (w : world) :
  run' pmid w =
  let get := efetch_request pmid in
  match remote (requests w) get with
  | inl failure => (inl (failure_exn failure), issued w get)
  | inr r1 =>
      if is_success r1 then
        match fromstring (content r1) with
        | inl msg => (inl (XMLSyntaxError msg), issued w get)
        | inr root =>
            let abstract := strcat (abstract_text_nodes false root) in
            let post := annotate_request abstract in
            match remote (requests w ++ [get]) post with
            | inl failure => (inl (failure_exn failure), issued (issued w get) post)
            | inr r2 =>
                if is_success r2 then
                  if writable (pmid +:+ ".json")
                  then (inr tt,
                        mkWorld (requests w ++ [get; post])
                                (<[pmid +:+ ".json" := content r2]> (files w)))
                  else (inl (OSError (pmid +:+ ".json")), issued (issued w get) post)
                else (inl (HTTPStatusError (status_code r2)), issued (issued w get) post)
            end
        end
      else (inl (HTTPStatusError (status_code r1)), issued w get)
  end.
Proof.
  cbv zeta. rewrite main_spec, fetch_pubmed_xml_spec.
  destruct (remote (requests w) (efetch_request pmid)) as [[t|head b]|r1];
    [reflexivity | cbn [failure_exn]; now destruct (is_success head) |].
  destruct (is_success r1); [|reflexivity]. cbv beta iota delta [Return Raise].
  rewrite extract_abstract_spec.
  destruct (fromstring (content r1)) as [msg|root]; [reflexivity|].
  cbv beta iota delta [Return Raise]. rewrite apply_glida_ner_to_text_spec.
  cbn [requests files issued].
  destruct (remote _ (annotate_request _)) as [[t|head b]|r2];
    [reflexivity | cbn [failure_exn]; now destruct (is_success head) |].
  destruct (is_success r2); [|reflexivity]. cbv beta iota delta [Return Raise].
  rewrite <- app_assoc. reflexivity.
Qed.

Lemma failure_exn_cases (f : failure) :
  (exists status, failure_exn f = HTTPStatusError status)
  \/ (exists t, failure_exn f = TransportError t)
  \/ failure_exn f = DecodingError.
Proof.
  destruct f as [t|head [|t]]; cbn [failure_exn body_exn];
    [|destruct (is_success head)..]; eauto.
Qed.

(** The file of a successful run holds the body of Glida's answer to the
    abstract extracted from the body of eFetch's answer: the data goes from
    stage to stage as it is, through exactly two requests, the GET first. *)
Theorem main_end_to_end (pmid : str) (w w' : world) :
  run' pmid w = (Return tt, w') ->
  exists r1 abstract r2,
    remote (requests w) (efetch_request pmid) = inr r1
    /\ is_success r1 = true
    /\ extract_abstract_from_pubmed_xml fromstring (content r1) = Return abstract
    /\ remote (requests w ++ [efetch_request pmid]) (annotate_request abstract) = inr r2
    /\ is_success r2 = true
    /\ w' = mkWorld (requests w ++ [efetch_request pmid; annotate_request abstract])
                    (<[pmid +:+ ".json" := content r2]> (files w)).
Proof.
  rewrite main_anatomy. cbv zeta.
  destruct (remote (requests w) (efetch_request pmid)) as [|r1] eqn:H1; [discriminate|].
  destruct (is_success r1) eqn:S1; [|discriminate].
  destruct (fromstring (content r1)) as [|root] eqn:Hroot; [discriminate|].
  destruct (remote _ (annotate_request _)) as [|r2] eqn:H2; [discriminate|].
  destruct (is_success r2) eqn:S2; [|discriminate].
  destruct (writable _); [|discriminate].
  intros [= <-]. exists r1, (strcat (abstract_text_nodes false root)), r2.
  rewrite extract_abstract_spec, Hroot. auto 10.
Qed.


(** When the stages succeed and [<identifier>.json] cannot be opened for
    writing, [main] raises the [OSError], uncaught, after both requests,
    and no file has changed. *)
Theorem main_unwritable (pmid : str) (w : world) (r1 r2 : Response) (root : node) :
  remote (requests w) (efetch_request pmid) = inr r1 ->
  is_success r1 = true ->
  fromstring (content r1) = inr root ->
  remote (requests w ++ [efetch_request pmid])
         (annotate_request (strcat (abstract_text_nodes false root))) = inr r2 ->
  is_success r2 = true ->
  writable (pmid +:+ ".json") = false ->
  run' pmid w
  = (Raise (OSError (pmid +:+ ".json")),
     mkWorld (requests w ++ [efetch_request pmid;
                             annotate_request (strcat (abstract_text_nodes false root))])
             (files w)).
Proof.
  intros H1 S1 Hroot H2 S2 Hw. rewrite main_anatomy. cbv zeta.
  rewrite H1, S1, Hroot, H2, S2, Hw. unfold issued. cbn [requests files].
  now rewrite <- app_assoc.
Qed.

(** Whatever comes of a run, no file but [<identifier>.json] is created or
    modified, and no file is removed. *)
Theorem main_touches_one_file (pmid : str) (w : world) (other : string) :
  other <> pmid +:+ ".json" ->
  files (snd (run' pmid w)) !! other = files w !! other
  /\ forall path, is_Some (files w !! path) -> is_Some (files (snd (run' pmid w)) !! path).
Proof.
  intros Hother. rewrite main_anatomy. cbv zeta.
  destruct (remote (requests w) (efetch_request pmid)) as [|r1]; [split; auto|].
  destruct (is_success r1); [|split; auto].
  destruct (fromstring (content r1)) as [|root]; [split; auto|].
  destruct (remote _ (annotate_request _)) as [|r2]; [split; auto|].
  destruct (is_success r2); [|split; auto].
  destruct (writable _); [|split; auto].
  cbn [snd files]. split.
  - now apply lookup_insert_ne.
  - intros path Hpath. apply lookup_insert_is_Some'. now right.
Qed.

(** A record without an abstract is not skipped: the empty string is sent
    to Glida, in a second request, as any abstract would be. *)
Theorem main_annotates_empty_abstract (pmid : str) (w : world) (r1 : Response) (root : node) :
  remote (requests w) (efetch_request pmid) = inr r1 ->
  is_success r1 = true ->
  fromstring (content r1) = inr root ->
  abstract_text_elements root = [] ->
  requests (snd (run' pmid w))
  = requests w ++ [efetch_request pmid; annotate_request ""].
Proof.
  intros H1 S1 Hroot Hnone. rewrite main_anatomy. cbv zeta.
  rewrite H1, S1, Hroot.
  rewrite (abstract_text_nodes_none root (no_abstract_text_elements root Hnone)).
  change (strcat []) with "".
  destruct (remote _ (annotate_request "")) as [|r2];
    [cbn [snd requests issued]; now rewrite <- app_assoc|].
  destruct (is_success r2); [|cbn [snd requests issued]; now rewrite <- app_assoc].
  destruct (writable _); [reflexivity|].
  cbn [snd requests issued]. now rewrite <- app_assoc.
Qed.

(** With services that answer a request the same way every time, a second
    run after a successful one succeeds too and leaves every file as the
    first run left it. *)
Theorem main_idempotent (pmid : str) (w w1 : world) :
  stable remote ->
  run' pmid w = (Return tt, w1) ->
  exists w2, run' pmid w1 = (Return tt, w2) /\ files w2 = files w1.
Proof.
  intros Hstable Hfirst. rewrite main_anatomy in Hfirst. cbv zeta in Hfirst.
  rewrite main_anatomy. cbv zeta.
  rewrite (Hstable (requests w1) (requests w)).
  destruct (remote (requests w) (efetch_request pmid)) as [|r1]; [discriminate|].
  destruct (is_success r1); [|discriminate].
  destruct (fromstring (content r1)) as [|root]; [discriminate|].
  rewrite (Hstable (requests w1 ++ _) (requests w ++ [efetch_request pmid])).
  destruct (remote _ (annotate_request _)) as [|r2]; [discriminate|].
  destruct (is_success r2); [|discriminate].
  destruct (writable _); [|discriminate].
  injection Hfirst as <-. eexists. split; [reflexivity|]. cbn [files].
  apply insert_insert_eq.
Qed.

End Anatomy.

(** ** What the extraction leaves out *)

Section LeftOut.

Variable fromstring : bytes -> string + node.

Lemma is_abstract_text_plain ns tag attrib cs cs' :
  is_abstract_text (Element ns tag attrib cs) = is_abstract_text (Element ns tag [] cs').
Proof. reflexivity. Qed.

Lemma abstract_text_nodes_plain (n : node) : forall inside,
  abstract_text_nodes inside n = flat_map (abstract_text_nodes inside) (plain n).
Proof.
  induction n as [ns tag attrib cs IH | s | s | t d] using node_ind'; intros inside;
    try reflexivity.
  - cbn [plain flat_map abstract_text_nodes]. rewrite app_nil_r.
    rewrite (is_abstract_text_plain ns tag attrib cs (flat_map plain cs)).
    generalize (is_abstract_text (Element ns tag [] (flat_map plain cs))) as flag.
    intros flag. induction cs as [|c cs IHcs]; [reflexivity|].
    apply Forall_cons in IH as [IHc IH].
    cbn [flat_map]. rewrite List.flat_map_app, <- IHc, <- (IHcs IH). reflexivity.
  - cbn [plain flat_map abstract_text_nodes]. now rewrite app_nil_r.
Qed.

(** Attributes, comments and processing instructions never reach the
    abstract: two documents that differ in nothing else give the same
    string.  The section labels of a structured abstract are attributes. *)
Theorem extract_abstract_ignores_markup (xml xml' : bytes) (root root' : node) :
  fromstring xml = inr root ->
  fromstring xml' = inr root' ->
  plain root = plain root' ->
  extract_abstract_from_pubmed_xml fromstring xml
  = extract_abstract_from_pubmed_xml fromstring xml'.
Proof.
  intros Hroot Hroot' Hplain. rewrite !extract_abstract_spec, Hroot, Hroot'.
  now rewrite (abstract_text_nodes_plain root), (abstract_text_nodes_plain root'), Hplain.
Qed.

Lemma text_nodes_Element ns tag attrib cs :
  text_nodes (Element ns tag attrib cs) = flat_map text_nodes cs.
Proof.
  unfold text_nodes. cbn [descendants_or_self flat_map app].
  induction cs as [|c cs IH]; [reflexivity|].
  cbn [flat_map]. now rewrite List.flat_map_app, IH.
Qed.

Lemma abstract_text_nodes_sublist (n : node) : forall inside,
  abstract_text_nodes inside n `sublist_of` text_nodes n.
Proof.
  induction n as [ns tag attrib cs IH | s | s | t d] using node_ind'; intros inside.
  - rewrite text_nodes_Element. cbn [abstract_text_nodes].
    generalize (is_abstract_text (Element ns tag attrib cs)) as flag. intros flag.
    induction cs as [|c cs IHcs]; [constructor|].
    apply Forall_cons in IH as [IHc IH]. cbn [flat_map].
    apply sublist_app; [apply IHc | apply (IHcs IH)].
  - destruct inside; cbn; [reflexivity | apply sublist_nil_l].
  - apply sublist_nil_l.
  - apply sublist_nil_l.
Qed.

Lemma text_content_text_nodes (n : node) :
  text_content n = strcat (text_nodes n).
Proof.
  induction n as [ns tag attrib cs IH | s | s | t d] using node_ind'; try reflexivity.
  - rewrite text_nodes_Element. cbn [text_content].
    induction cs as [|c cs IHcs]; [reflexivity|].
    apply Forall_cons in IH as [IHc IH].
    cbn [map flat_map]. rewrite strcat_cons, strcat_app, IHc, (IHcs IH). reflexivity.
  - cbn. now rewrite append_empty_r.
Qed.

(** The abstract is made of text nodes of the document, each taken whole
    and at most once, in the order of the document: the extraction neither
    reorders nor repeats nor alters text, and the text content of the
    document is the same concatenation over all its text nodes. *)
Theorem extract_abstract_subsequence (xml : bytes) (root : node) :
  fromstring xml = inr root ->
  exists picked,
    extract_abstract_from_pubmed_xml fromstring xml = Return (strcat picked)
    /\ picked `sublist_of` text_nodes root
    /\ text_content root = strcat (text_nodes root).
Proof.
  intros Hroot. exists (abstract_text_nodes false root).
  rewrite extract_abstract_spec, Hroot. split; [reflexivity|].
  split; [apply abstract_text_nodes_sublist | apply text_content_text_nodes].
Qed.

End LeftOut.

(** ** More runs on concrete environments *)

Import Environments.

Lemma main_end_to_end_witness :
  main stub_remote any_path_writable Fragment.fromstring "12345" stale
  = (Return tt, mkWorld [efetch_request "12345"; annotate_request "Hello world"]
                        (<["12345.json" := hello_json]> (files stale)))
  /\ exists r1 abstract r2,
       stub_remote (requests stale) (efetch_request "12345") = inr r1
       /\ is_success r1 = true
       /\ extract_abstract_from_pubmed_xml Fragment.fromstring (content r1)
          = Return abstract
       /\ stub_remote (requests stale ++ [efetch_request "12345"])
                      (annotate_request abstract) = inr r2
       /\ is_success r2 = true
       /\ mkWorld [efetch_request "12345"; annotate_request "Hello world"]
                  (<["12345.json" := hello_json]> (files stale))
          = mkWorld (requests stale ++ [efetch_request "12345"; annotate_request abstract])
                    (<["12345" +:+ ".json" := content r2]> (files stale)).
Proof.
  assert (Hrun : main stub_remote any_path_writable Fragment.fromstring "12345" stale
                 = (Return tt, mkWorld [efetch_request "12345"; annotate_request "Hello world"]
                                       (<["12345.json" := hello_json]> (files stale))))
    by (vm_compute; reflexivity).
  split; [exact Hrun|].
  exact (main_end_to_end stub_remote any_path_writable Fragment.fromstring
           "12345" stale _ Hrun).
Defined.


Lemma main_unwritable_witness :
  main stub_remote read_only Fragment.fromstring "12345" stale
  = (Raise (OSError "12345.json"),
     mkWorld [efetch_request "12345"; annotate_request "Hello world"] (files stale)).
Proof.
  apply (main_unwritable stub_remote read_only Fragment.fromstring "12345" stale
           (mkResponse 200 hello_xml) (mkResponse 200 hello_json)
           (Element None "PubmedArticleSet" []
              [Element None "PubmedArticle" []
                 [Element None "MedlineCitation" []
                    [Element None "Article" []
                       [Element None "Abstract" []
                          [Element None "AbstractText" [] [Text "Hello world"]]]]]]));
    vm_compute; reflexivity.
Defined.

Lemma main_touches_one_file_witness :
  files (snd (main echo_remote any_path_writable Fragment.fromstring "12345" crowded))
    !! "12345.json" = Some (bytes_of "Hello world")
  /\ files (snd (main echo_remote any_path_writable Fragment.fromstring "12345" crowded))
       !! "notes.txt" = Some (bytes_of "keep")
  /\ files (snd (main echo_remote any_path_writable Fragment.fromstring "12345" crowded))
       !! "67890.json" = Some (bytes_of "[]").
Proof.
  split; [vm_compute; reflexivity|]. split.
  - destruct (main_touches_one_file echo_remote any_path_writable Fragment.fromstring
                "12345" crowded "notes.txt") as [H _]; [discriminate|].
    rewrite H. vm_compute. reflexivity.
  - destruct (main_touches_one_file echo_remote any_path_writable Fragment.fromstring
                "12345" crowded "67890.json") as [H _]; [discriminate|].
    rewrite H. vm_compute. reflexivity.
Defined.

Lemma main_annotates_empty_abstract_witness :
  Fragment.fromstring no_abstract_xml = inr no_abstract_root
  /\ abstract_text_elements no_abstract_root = []
  /\ requests (snd (main bare_remote any_path_writable Fragment.fromstring "12345" fresh))
     = [efetch_request "12345"; annotate_request ""].
Proof.
  split; [vm_compute; reflexivity|]. split; [vm_compute; reflexivity|].
  apply (main_annotates_empty_abstract bare_remote any_path_writable Fragment.fromstring
           "12345" fresh (mkResponse 200 no_abstract_xml) no_abstract_root);
    vm_compute; reflexivity.
Defined.

Lemma main_idempotent_witness :
  stable stub_remote
  /\ exists w1 w2,
       main stub_remote any_path_writable Fragment.fromstring "12345" stale = (Return tt, w1)
       /\ main stub_remote any_path_writable Fragment.fromstring "12345" w1 = (Return tt, w2)
       /\ files w2 = files w1.
Proof.
  assert (Hstable : stable stub_remote) by (intros h h' req; reflexivity).
  split; [exact Hstable|].
  set (w1 := mkWorld [efetch_request "12345"; annotate_request "Hello world"]
                     (<["12345.json" := hello_json]> (files stale))).
  assert (Hfirst : main stub_remote any_path_writable Fragment.fromstring "12345" stale
                   = (Return tt, w1)) by (vm_compute; reflexivity).
  destruct (main_idempotent stub_remote any_path_writable Fragment.fromstring
              "12345" stale w1 Hstable Hfirst) as (w2 & Hsecond & Hfiles).
  exists w1, w2. auto.
Defined.

Lemma extract_abstract_ignores_markup_witness :
  Fragment.fromstring structured_xml = inr structured_root
  /\ Fragment.fromstring unlabelled_xml = inr unlabelled_root
  /\ structured_root <> unlabelled_root
  /\ extract_abstract_from_pubmed_xml Fragment.fromstring structured_xml
     = extract_abstract_from_pubmed_xml Fragment.fromstring unlabelled_xml.
Proof.
  assert (H1 : Fragment.fromstring structured_xml = inr structured_root)
    by (vm_compute; reflexivity).
  assert (H2 : Fragment.fromstring unlabelled_xml = inr unlabelled_root)
    by (vm_compute; reflexivity).
  split; [exact H1|]. split; [exact H2|]. split; [discriminate|].
  apply (extract_abstract_ignores_markup Fragment.fromstring structured_xml unlabelled_xml
           structured_root unlabelled_root H1 H2).
  vm_compute. reflexivity.
Defined.

Lemma extract_abstract_subsequence_witness :
  Fragment.fromstring inline_markup_xml = inr inline_markup_root
  /\ text_nodes inline_markup_root = ["Hello "; "world"; "!"]
  /\ exists picked,
       extract_abstract_from_pubmed_xml Fragment.fromstring inline_markup_xml
       = Return (strcat picked)
       /\ picked `sublist_of` ["Hello "; "world"; "!"].
Proof.
  assert (H : Fragment.fromstring inline_markup_xml = inr inline_markup_root)
    by (vm_compute; reflexivity).
  split; [exact H|]. split; [vm_compute; reflexivity|].
  destruct (extract_abstract_subsequence Fragment.fromstring inline_markup_xml
              inline_markup_root H) as (picked & Hres & Hsub & _).
  exists picked. split; [exact Hres | exact Hsub].
Defined.
